(** * A spreadsheet-backed REST gateway: embedding and properties

    The repository is an Express server (three near-identical variants of
    [server.js]) that authenticates bearer tokens, reads and appends rows of a
    remote spreadsheet, caches one derived payload for thirty seconds and
    reshapes loosely typed cells into JSON.

    The development is organised as the code is:
    - [Js]        the JavaScript values and built-ins the handlers call
                  ([parseFloat], [toFixed], [Math.round], [||], [===], ...);
    - [NodeCache] the TTL cache instance [new NodeCache({ stdTTL: 30 })];
    - [Http]      requests, responses, the handler monad, the downstream
                  [sheets.spreadsheets.values] client and the cache instance;
    - [Firebase]  the variant with [FIREBASE_CREDENTIALS];
    - [FirebaseFields] the variant with split credential fields;
    - [Legacy]    the first variant (key file, [jsonwebtoken]);
    - [Run]       the vocabulary of the properties and sample surroundings;
    - [Overlap]   the handlers that share the cache or the balance sheet,
                  cut at their awaited spreadsheet calls, and the machine
                  that interleaves requests;
    - [Ngrok]     the tunnel script's rewrite of the client's [.env];
    - [Cover]     the vocabulary of the further properties.

    A handler of the modules [Firebase], [FirebaseFields] and [Legacy] is one
    request served alone, from its arrival to its answer. Requests that
    overlap are the subject of [Overlap], whose handlers are shown to be
    those of [Firebase] when a request is served alone. Time is an explicit
    input: the world carries the clock, and an awaited downstream call
    advances it. *)

From Stdlib Require Import ZArith Ascii String SpecFloat.
From stdpp Require Import gmap strings list.

Local Open Scope Z_scope.

(* ===================================================================== *)
(** * JavaScript values and built-ins *)
(* ===================================================================== *)

Module Js.

(** A JS Number is an IEEE-754 binary64; [spec_float] is the Standard
    Library's executable specification of those ([prec = 53], [emax = 1024]). *)
Definition number : Type := spec_float.

Definition prec : Z := 53.
Definition emax : Z := 1024.

Definition NaN : number := S754_nan.
Definition zero : number := S754_zero false.

Definition isNaN (x : number) : bool :=
  match x with S754_nan => true | _ => false end.

Definition number_of_Z (z : Z) : number := binary_normalize prec emax z 0 false.

(** [neg ? -(m * 10^e) : m * 10^e], rounded to the nearest double, ties to
    even: the Number value of a decimal literal. *)
Definition round_decimal (neg : bool) (m e : Z) : number :=
  match m with
  | Zpos _ =>
      match e with
      | Zneg k =>
          let '(q, e', l) := SFdiv_core_binary prec emax m 0 (10 ^ Zpos k) 0 in
          binary_round_aux prec emax neg q e' l
      | _ => binary_normalize prec emax (if neg then - (m * 10 ^ e) else m * 10 ^ e) 0 false
      end
  | _ => S754_zero neg
  end.

(** ** Strings as sequences of code units below 256 *)

Definition is_digit (c : ascii) : bool :=
  let n := nat_of_ascii c in (48 <=? n)%nat && (n <=? 57)%nat.

Definition digit_value (c : ascii) : Z := Z.of_nat (nat_of_ascii c) - 48.

Definition digit_char (d : Z) : ascii := ascii_of_nat (Z.to_nat (48 + d)).

(** WhiteSpace and LineTerminator code units: TAB, LF, VT, FF, CR, SP, NBSP. *)
Definition is_whitespace (c : ascii) : bool :=
  match nat_of_ascii c with
  | 9 | 10 | 11 | 12 | 13 | 32 | 160 => true
  | _ => false
  end%nat.

Fixpoint trim_start (s : string) : string :=
  match s with
  | String c r => if is_whitespace c then trim_start r else s
  | EmptyString => s
  end.

(** Reads the longest run of decimal digits, accumulating its value. *)
Fixpoint scan_digits (s : string) (acc : Z) (count : nat) : Z * nat * string :=
  match s with
  | String c r =>
      if is_digit c then scan_digits r (10 * acc + digit_value c) (S count)
      else (acc, count, s)
  | EmptyString => (acc, count, s)
  end.

Definition scan_sign (s : string) : bool * string :=
  match s with
  | String "-" r => (true, r)
  | String "+" r => (false, r)
  | _ => (false, s)
  end.

(** ExponentPart, when one is there in full; otherwise it is not part of
    the longest numeric prefix and counts as 0. *)
Definition scan_exponent (s : string) : Z :=
  match s with
  | String c r =>
      if Ascii.eqb c "e" || Ascii.eqb c "E" then
        let '(neg, r') := scan_sign r in
        let '(v, n, _) := scan_digits r' 0 0 in
        match n with
        | O => 0
        | _ => if neg then - v else v
        end
      else 0
  | EmptyString => 0
  end.

(** StrUnsignedDecimalLiteral: [Infinity], or digits with an optional
    fraction and exponent; NaN when no prefix is one. *)
Definition parse_unsigned (neg : bool) (s : string) : number :=
  if String.prefix "Infinity" s then S754_infinity neg
  else
    let '(ip, ni, r1) := scan_digits s 0 0 in
    let '(mant, nf, r2) :=
      match r1 with
      | String "." r => scan_digits r ip 0
      | _ => (ip, O, r1)
      end in
    match (ni + nf)%nat with
    | O => NaN
    | _ => round_decimal neg mant (scan_exponent r2 - Z.of_nat nf)
    end.

(** [parseFloat] on a string. *)
Definition parseFloat_string (s : string) : number :=
  let '(neg, r) := scan_sign (trim_start s) in parse_unsigned neg r.

(** ** Number::toString *)

Fixpoint digits_fuel (fuel : nat) (n : Z) (acc : string) : string :=
  match fuel with
  | O => acc
  | S f =>
      let acc' := String (digit_char (n mod 10)) acc in
      if n / 10 =? 0 then acc' else digits_fuel f (n / 10) acc'
  end.

(** Decimal digits of a non-negative integer. *)
Definition digits (n : Z) : string :=
  digits_fuel (S (Z.to_nat (Z.log2 n))) n EmptyString.

Fixpoint zeros (n : nat) : string :=
  match n with O => EmptyString | S k => String "0" (zeros k) end.

(** The exact value [N / D] of the finite double [m * 2^e]. *)
Definition ratio (m : positive) (e : Z) : Z * Z :=
  match e with
  | Zneg k => (Zpos m, 2 ^ Zpos k)
  | _ => (Zpos m * 2 ^ e, 1)
  end.

(** [(X, U)] with [X / U = (N / D) / 10^p]. *)
Definition scale10 (N D p : Z) : Z * Z :=
  match p with
  | Zneg k => (N * 10 ^ Zpos k, D)
  | _ => (N, D * 10 ^ p)
  end.

(** The [n] with [10^(n-1) <= N/D < 10^n], searched from a first guess. *)
Fixpoint decimal_exponent (fuel : nat) (N D n : Z) : Z :=
  match fuel with
  | O => n
  | S f =>
      let '(X, U) := scale10 N D n in
      if U <=? X then decimal_exponent f N D (n + 1)
      else if X * 10 <? U then decimal_exponent f N D (n - 1)
      else n
  end.

Definition reads_back (x : number) (s p : Z) : bool :=
  SFeqb (round_decimal false s p) x.

(** The least [k] and the [k]-digit [s] with [s * 10^(n-k)] reading back
    as [x]; of two such [s] the closer to [x], the even one on a tie. *)
Fixpoint shortest (fuel : nat) (x : number) (N D n k : Z) : Z * Z :=
  match fuel with
  | O => (0, k)
  | S f =>
      let p := n - k in
      let '(X, U) := scale10 N D p in
      let lo := X / U in
      let r := X mod U in
      let hi := lo + 1 in
      let ok_lo := reads_back x lo p in
      let ok_hi := (hi <? 10 ^ k) && reads_back x hi p in
      match ok_lo, ok_hi with
      | true, true =>
          (match 2 * r ?= U with
           | Lt => lo
           | Gt => hi
           | Eq => if Z.even lo then lo else hi
           end, k)
      | true, false => (lo, k)
      | false, true => (hi, k)
      | false, false => shortest f x N D n (k + 1)
      end
  end.

(** The first [n] code units of [s], and the rest. *)
Fixpoint take_str (n : nat) (s : string) : string :=
  match n, s with
  | S n', String c r => String c (take_str n' r)
  | _, _ => EmptyString
  end.

Fixpoint drop_str (n : nat) (s : string) : string :=
  match n, s with
  | S n', String c r => drop_str n' r
  | _, _ => s
  end.

(** The last step of Number::toString: [k] digits [ds], decimal point
    after the [n]-th. *)
Definition format_decimal (ds : string) (k n : Z) : string :=
  if (k <=? n) && (n <=? 21) then ds +:+ zeros (Z.to_nat (n - k))
  else if (0 <? n) && (n <=? 21) then
    take_str (Z.to_nat n) ds +:+ "." +:+ drop_str (Z.to_nat n) ds
  else if (-6 <? n) && (n <=? 0) then "0." +:+ zeros (Z.to_nat (- n)) +:+ ds
  else
    let e := n - 1 in
    let es := (if e <? 0 then "-" else "+") +:+ digits (Z.abs e) in
    if k =? 1 then ds +:+ "e" +:+ es
    else take_str 1 ds +:+ "." +:+ drop_str 1 ds +:+ "e" +:+ es.

Definition number_to_string (x : number) : string :=
  match x with
  | S754_nan => "NaN"
  | S754_zero _ => "0"
  | S754_infinity s => if s then "-Infinity" else "Infinity"
  | S754_finite s m e =>
      let ax := S754_finite false m e in
      let '(N, D) := ratio m e in
      let n := decimal_exponent 1100 N D (((Z.log2 N - Z.log2 D) * 1233) / 4096) in
      let '(sg, k, n') :=
        if reads_back ax 1 n then (1, 1, n + 1)
        else let '(sg, k) := shortest 20 ax N D n 1 in (sg, k, n) in
      (if s then "-" else EmptyString) +:+ format_decimal (digits sg) k n'
  end.

(** ** Number.prototype.toFixed(2) and Math.round *)

(** [n] hundredths written with two fraction digits, padded with zeros to
    at least three digits. *)
Definition fixed2_of_hundredths (n : Z) : string :=
  let m0 := digits n in
  let k := String.length m0 in
  let m1 := if (k <=? 2)%nat then zeros (3 - k) +:+ m0 else m0 in
  let k1 := String.length m1 in
  take_str (k1 - 2) m1 +:+ "." +:+ drop_str (k1 - 2) m1.

(** [x.toFixed(2)]: not finite, or 1e21 and above, falls back to
    Number::toString; otherwise the nearest number of hundredths, the larger
    one on a tie. *)
Definition toFixed2 (x : number) : string :=
  match x with
  | S754_finite s m e =>
      let '(N, D) := ratio m e in
      if 10 ^ 21 * D <=? N then number_to_string x
      else (if s then "-" else EmptyString) +:+ fixed2_of_hundredths ((200 * N + D) / (2 * D))
  | S754_zero _ => fixed2_of_hundredths 0
  | _ => number_to_string x
  end.

(** [Math.round]: the nearest integer, towards +infinity on a tie, and -0
    for [-0.5 <= x < 0]. *)
Definition Math_round (x : number) : number :=
  match x with
  | S754_finite s m (Zneg k) =>
      let d := 2 ^ Zpos k in
      let r := (if s then d - 2 * Zpos m else 2 * Zpos m + d) / (2 * d) in
      if r =? 0 then S754_zero s else number_of_Z r
  | _ => x
  end.

(** ** Values *)

(** The primitive values that reach the handlers: spreadsheet cells
    (string, number or boolean under [UNFORMATTED_VALUE]), JSON body fields,
    token claims, and [undefined] for what is absent. *)
Inductive value : Type :=
  | VUndef
  | VNull
  | VBool (b : bool)
  | VNum (x : number)
  | VStr (s : string).

(** ToBoolean. *)
Definition truthy (v : value) : bool :=
  match v with
  | VUndef | VNull => false
  | VBool b => b
  | VNum (S754_zero _) | VNum S754_nan => false
  | VNum _ => true
  | VStr EmptyString => false
  | VStr _ => true
  end.

(** [a || b] and [!a]. *)
Definition or_else (a b : value) : value := if truthy a then a else b.
Definition falsy (a : value) : bool := negb (truthy a).

(** [a === b]. *)
Definition strict_eq (a b : value) : bool :=
  match a, b with
  | VUndef, VUndef | VNull, VNull => true
  | VBool x, VBool y => Bool.eqb x y
  | VNum x, VNum y => SFeqb x y
  | VStr x, VStr y => String.eqb x y
  | _, _ => false
  end.

(** ToString. *)
Definition ToString (v : value) : string :=
  match v with
  | VUndef => "undefined"
  | VNull => "null"
  | VBool b => if b then "true" else "false"
  | VNum x => number_to_string x
  | VStr s => s
  end.

(** The global [parseFloat]: ToString, then the longest numeric prefix. *)
Definition parseFloat (v : value) : number := parseFloat_string (ToString v).

(** [a[i]] on an array: [undefined] out of range. *)
Definition index (a : list value) (i : nat) : value := default VUndef (a !! i).

(** [a?.[i]] where [a] is an array or [undefined]. *)
Definition opt_index (a : option (list value)) (i : nat) : value :=
  match a with
  | Some r => index r i
  | None => VUndef
  end.

(** Structured values: what [res.json] is handed, before serialisation. *)
#[local] Set Warnings "-register-all".
Inductive data : Type :=
  | Prim (v : value)
  | Arr (items : list data)
  | Obj (fields : list (string * data)).

Definition Str (s : string) : data := Prim (VStr s).
Definition Num (x : number) : data := Prim (VNum x).
Definition Bool (b : bool) : data := Prim (VBool b).

(** ** Exceptions *)

(** An [Error] object: [code] is what the API client sets on a failed HTTP
    call (429 for rate limiting). *)
Record error : Type := Error { name : string; message : string; code : option Z }.

Definition TypeError (msg : string) : error :=
  {| name := "TypeError"; message := msg; code := None |}.

Definition new_Error (msg : string) : error :=
  {| name := "Error"; message := msg; code := None |}.

Inductive result (A : Type) : Type :=
  | Ok (a : A)
  | Throw (e : error).
Arguments Ok {A} a.
Arguments Throw {A} e.

Definition rbind {A B} (r : result A) (k : A -> result B) : result B :=
  match r with
  | Ok a => k a
  | Throw e => Throw e
  end.

Fixpoint rmap {A B} (f : A -> result B) (l : list A) : result (list B) :=
  match l with
  | [] => Ok []
  | x :: l' =>
      rbind (f x) (fun y => rbind (rmap f l') (fun ys => Ok (y :: ys)))
  end.

(** [v.toString()]: a TypeError on [undefined] and [null]. *)
Definition toString (v : value) : result value :=
  match v with
  | VUndef => Throw (TypeError "Cannot read properties of undefined (reading 'toString')")
  | VNull => Throw (TypeError "Cannot read properties of null (reading 'toString')")
  | _ => Ok (VStr (ToString v))
  end.

(** [v?.toString()]. *)
Definition opt_toString (v : value) : result value :=
  match v with
  | VUndef | VNull => Ok VUndef
  | _ => toString v
  end.

(** [s.split(c)] for a one-character separator. *)
Fixpoint split_string (c : ascii) (s : string) : list string :=
  match s with
  | EmptyString => [EmptyString]
  | String a r =>
      if Ascii.eqb a c then EmptyString :: split_string c r
      else
        match split_string c r with
        | h :: t => String a h :: t
        | [] => [String a EmptyString]
        end
  end.

(** [v.split(c)]: only strings have the method. *)
Definition split (v : value) (c : ascii) : result (list value) :=
  match v with
  | VStr s => Ok (VStr <$> split_string c s)
  | VUndef => Throw (TypeError "Cannot read properties of undefined (reading 'split')")
  | VNull => Throw (TypeError "Cannot read properties of null (reading 'split')")
  | _ => Throw (TypeError "split is not a function")
  end.

(** [a.findIndex(p)] and [a.find(p)]; [None] is -1, resp. [undefined]. *)
Fixpoint findIndex {A} (p : A -> bool) (l : list A) : option nat :=
  match l with
  | [] => None
  | x :: l' => if p x then Some O else S <$> findIndex p l'
  end.

Definition find {A} (p : A -> bool) (l : list A) : option A := List.find p l.

(** [a.slice(-n)]: the last [n] elements, all of them when there are fewer. *)
Definition slice_last {A} (n : nat) (l : list A) : list A :=
  drop (length l - n) l.

End Js.

(* ===================================================================== *)
(** * node-cache *)
(* ===================================================================== *)

(** The part of [node-cache] the server uses: [get] and [set] on the store
    [data], an entry being a value [v] and the time [t] (ms) after which it
    is expired, 0 standing for never. *)
Module NodeCache.

Section Store.
Context {V : Type}.

Record entry : Type := Entry { t : Z; v : V }.

(** [_wrap]: when an entry written at [now] with [ttl] seconds expires. *)
Definition livetime (now ttl : Z) : Z :=
  if ttl =? 0 then 0 else now + ttl * 1000.

(** [_check]: false once the entry is past its time. *)
Definition check (now : Z) (d : entry) : bool :=
  negb (negb (t d =? 0) && (t d <? now)).

(** [get]: an expired entry is deleted and reads as [undefined]. *)
Definition get (now : Z) (key : string) (c : gmap string entry)
  : option V * gmap string entry :=
  match c !! key with
  | Some d => if check now d then (Some (v d), c) else (None, delete key c)
  | None => (None, c)
  end.

Definition set (now : Z) (key : string) (value : V) (ttl : Z)
    (c : gmap string entry) : gmap string entry :=
  <[key := {| t := livetime now ttl; v := value |}]> c.
End Store.

Arguments entry V : clear implicits.

End NodeCache.

(* ===================================================================== *)
(** * Requests, responses, the world and the handler monad *)
(* ===================================================================== *)

Module Http.
Import Js.

Definition row : Type := list value.

(** What the identity provider decodes a token to (the claims the code
    reads). *)
Record decoded_token : Type := DecodedToken {
  token_email : value;
  token_name : value;
  token_uid : value;
  token_phone_number : value
}.

Definition decoded_token_data (d : decoded_token) : data :=
  Obj [("email", Prim (token_email d)); ("name", Prim (token_name d));
       ("uid", Prim (token_uid d)); ("phone_number", Prim (token_phone_number d))].

(** [formattedResult] of the performance endpoint, the cached payload. *)
Record performance : Type := Performance {
  thisWeek : string;
  lastWeek : string;
  monthly : number;
  yearly : number
}.

(** The request fields the handlers read; an absent one is [undefined]. *)
Record request : Type := Request {
  authorization : option string;     (* req.headers['authorization'] *)
  body_idToken : value;
  body_email : value;
  body_password : value;
  body_displayName : value;
  body_phoneNumber : value;
  query_sheet : value
}.

Record response : Type := Response { status : Z; body : data }.

(** [res.json(x)] and [res.status(n).json(x)]. *)
Definition json (x : data) : response := {| status := 200; body := x |}.
Definition status_json (n : Z) (x : data) : response := {| status := n; body := x |}.

(** Downstream calls, in the order they were issued. *)
Inductive call : Type :=
  | Get (range : string)
  | Append (range : string) (r : row).

(** How [sheets.spreadsheets.values.get] answers during one request: with
    the range's rows, with a rejection, or with a response that has no
    [data]. *)
Inductive downstream : Type :=
  | Healthy
  | Rejects (e : error)
  | Bodyless.

(** What surrounds one request: the identity provider, the JWT library, the
    behaviour of the spreadsheet API, the time an awaited call takes, and
    [process.env.NODE_ENV]. *)
Record env : Type := Env {
  verifyIdToken : string -> result decoded_token;
  createCustomToken : value -> result string;
  jwt_verify : string -> result value;
  jwt_sign : value -> string;
  reads : downstream;
  appends : option error;
  latency : Z;
  NODE_ENV : value
}.

(** The state requests share: the clock ([Date.now()], ms), the cache
    instance, the spreadsheet's ranges as the API returns them (an absent key
    is a response without [values]), and the log of downstream calls. *)
Record world : Type := World {
  now : Z;
  cache : gmap string (NodeCache.entry performance);
  grid : gmap string (list row);
  calls : list call
}.

Definition set_now (n : Z) (w : world) : world :=
  {| now := n; cache := cache w; grid := grid w; calls := calls w |}.
Definition set_cache (c : gmap string (NodeCache.entry performance)) (w : world) : world :=
  {| now := now w; cache := c; grid := grid w; calls := calls w |}.
Definition set_grid (g : gmap string (list row)) (w : world) : world :=
  {| now := now w; cache := cache w; grid := g; calls := calls w |}.
Definition log_call (c : call) (w : world) : world :=
  {| now := now w; cache := cache w; grid := grid w; calls := calls w ++ [c] |}.

(** ** The handler monad: environment, state and exceptions *)

Definition M (A : Type) : Type := env -> world -> result A * world.

Definition ret {A} (a : A) : M A := fun _ w => (Ok a, w).

Definition bind {A B} (m : M A) (k : A -> M B) : M B :=
  fun e w =>
    match m e w with
    | (Ok a, w') => k a e w'
    | (Throw err, w') => (Throw err, w')
    end.

Definition throw {A} (err : error) : M A := fun _ w => (Throw err, w).

(** [try { body } catch (error) { handler }]: what the body did to the
    world before it threw stays done. *)
Definition try_catch {A} (body : M A) (handler : error -> M A) : M A :=
  fun e w =>
    match body e w with
    | (Ok a, w') => (Ok a, w')
    | (Throw err, w') => handler err e w'
    end.

Definition lift {A} (r : result A) : M A := fun _ w => (r, w).

Definition ask : M env := fun e w => (Ok e, w).

Declare Scope handler_scope.
Delimit Scope handler_scope with handler.
Notation "x <- c ;; k" := (bind c (fun x => k))
  (at level 100, c at next level, right associativity) : handler_scope.
Notation "c ;;; k" := (bind c (fun _ => k))
  (at level 100, right associativity) : handler_scope.
Local Open Scope handler_scope.

(** An awaited timer of [d] ms. *)
Definition sleep (d : Z) : M unit := fun _ w => (Ok tt, set_now (now w + d) w).

(** ** The spreadsheet client *)

(** [await sheets.spreadsheets.values.get({ range, ... })]: the result is
    [response.data], [None] when the response has none; [Some None] is a
    [data] without [values]. *)
Definition values_get (range : string) : M (option (option (list row))) :=
  fun e w =>
    let w' := log_call (Get range) (set_now (now w + latency e) w) in
    match reads e with
    | Healthy => (Ok (Some (grid w !! range)), w')
    | Rejects err => (Throw err, w')
    | Bodyless => (Ok None, w')
    end.

(** [response.data.values]. *)
Definition data_values (d : option (option (list row))) : result (option (list row)) :=
  match d with
  | Some v => Ok v
  | None => Throw (TypeError "Cannot read properties of undefined (reading 'values')")
  end.

(** [await sheets.spreadsheets.values.append({ range, resource: { values:
    [r] } })]: the row goes after the last row of the range. The cells are
    stored as submitted. *)
Definition values_append (range : string) (r : row) : M unit :=
  fun e w =>
    let w' := log_call (Append range r) (set_now (now w + latency e) w) in
    match appends e with
    | Some err => (Throw err, w')
    | None => (Ok tt, set_grid (<[range := default [] (grid w !! range) ++ [r]]> (grid w)) w')
    end.

(** ** The cache instance [new NodeCache({ stdTTL: 30 })] *)

Definition cache_get (key : string) : M (option performance) :=
  fun _ w =>
    let '(r, c) := NodeCache.get (now w) key (cache w) in (Ok r, set_cache c w).

Definition cache_set (key : string) (p : performance) (ttl : Z) : M unit :=
  fun _ w => (Ok tt, set_cache (NodeCache.set (now w) key p ttl (cache w)) w).

(** ** Serving *)

(** One request served in a world: the response, if the handler sent one,
    and the world it leaves. *)
Definition serve (h : M response) (e : env) (w : world) : option response * world :=
  match h e w with
  | (Ok r, w') => (Some r, w')
  | (Throw _, w') => (None, w')
  end.

(** [authHeader && authHeader.split(' ')[1]]. *)
Definition bearer_token (authHeader : option string) : result value :=
  match authHeader with
  | None => Ok VUndef
  | Some h =>
      if truthy (VStr h) then rbind (split (VStr h) " ") (fun parts => Ok (index parts 1))
      else Ok (VStr h)
  end.

(** [admin.auth().verifyIdToken(t)]: rejects what is not a string. *)
Definition verify_id_token (t : value) : M decoded_token :=
  fun e w =>
    match t with
    | VStr s => (verifyIdToken e s, w)
    | _ => (Throw (new_Error "First argument to verifyIdToken() must be a Firebase ID token string."), w)
    end.

End Http.

(* ===================================================================== *)
(** * The server with [FIREBASE_CREDENTIALS] (server.js, lines 202-630) *)
(* ===================================================================== *)

Module Firebase.
Import Js Http.
Local Open Scope handler_scope.

(** [req.user], as the middleware builds it. *)
Record user : Type := User {
  user_email : value;
  user_displayName : value;
  user_uid : value
}.

Definition user_json (u : user) : data :=
  Obj [("email", Prim (user_email u)); ("displayName", Prim (user_displayName u));
       ("uid", Prim (user_uid u))].

Definition error_json (msg : string) : data := Obj [("error", Str msg)].

(** [authenticateToken]: the [try] covers the extraction, the verification
    and the construction of [req.user]; [next()] hands over to the route's
    handler. *)
Definition authenticateToken (req : request) (next : user -> M response) : M response :=
  outcome <-
    try_catch
      (token <- lift (bearer_token (authorization req)) ;;
       if falsy token then
         ret (inl (status_json 401 (error_json "No token provided")))
       else
         decodedToken <- verify_id_token token ;;
         displayName <-
           (if truthy (token_name decodedToken) then ret (token_name decodedToken)
            else parts <- lift (split (token_email decodedToken) "@") ;;
                 ret (index parts 0)) ;;
         ret (inr {| user_email := token_email decodedToken;
                     user_displayName := displayName;
                     user_uid := token_uid decodedToken |}))
      (fun error => ret (inl (status_json 403 (error_json "Invalid token")))) ;;
  match outcome with
  | inl r => ret r
  | inr u => next u
  end.

(** ** [updateUserBalanceSheet] *)

Record userData : Type := UserData {
  displayName : value;
  email : value;
  phoneNumber : value
}.

Definition balance_range : string := "User-Balance!A2:G".

Definition newRow (u : userData) : row :=
  [ or_else (displayName u) (VStr EmptyString);
    email u;
    or_else (phoneNumber u) (VStr EmptyString);
    VNum zero;   (* Initial deposit *)
    VNum zero;   (* Initial PNL% *)
    VNum zero;   (* Initial Total Earnings *)
    VNum zero    (* Initial Balance *) ].

(** [row => row[1] === email]. *)
Definition has_email (e : value) (r : row) : bool := strict_eq (index r 1) e.

Definition updateUserBalanceSheet (u : userData) : M unit :=
  try_catch
    (response_data <- values_get balance_range ;;
     values <- lift (data_values response_data) ;;
     let existingData := default [] values in
     let userIndex := findIndex (has_email (email u)) existingData in
     match userIndex with
     | None => values_append balance_range (newRow u)
     | Some _ => ret tt
     end)
    (fun error => throw (new_Error ("Failed to update sheet: " +:+ message error))).

(** ** Routes *)

(** [GET /] *)
Definition root (req : request) : M response :=
  ret (json (Obj [("message", Str "Server is running!")])).

(** [GET /api/verify-token] *)
Definition verify_token (req : request) (u : user) : M response :=
  ret (json (Obj [("success", Bool true); ("user", user_json u)])).

Definition performance_json (p : performance) : data :=
  Obj [("thisWeek", Str (thisWeek p)); ("lastWeek", Str (lastWeek p));
       ("monthly", Num (monthly p)); ("yearly", Num (yearly p))].

Definition formattedResult (values : row) : performance :=
  {| thisWeek := toFixed2 (parseFloat (or_else (index values 0) (VNum zero)));
     lastWeek := toFixed2 (parseFloat (or_else (index values 2) (VNum zero)));
     monthly := Math_round (parseFloat (or_else (index values 4) (VNum zero)));
     yearly := Math_round (parseFloat (or_else (index values 6) (VNum zero))) |}.

(** [GET /api/performance-data]. [sheets] is set at start-up (the process
    exits otherwise), so the [!sheets] branch is not taken. *)
Definition performance_data (req : request) : M response :=
  try_catch
    (cachedData <- cache_get "performance-data" ;;
     match cachedData with
     | Some c => ret (json (performance_json c))
     | None =>
         response_data <- values_get "Trade-History!H1:N1" ;;
         match response_data with
         | Some (Some (values :: _)) =>
             let result := formattedResult values in
             cache_set "performance-data" result 30 ;;;
             ret (json (performance_json result))
         | _ =>
             match cachedData with
             | Some c => ret (json (performance_json c))
             | None => throw (new_Error "No data found in spreadsheet")
             end
         end
     end)
    (fun error =>
       cachedData <- cache_get "performance-data" ;;
       match cachedData with
       | Some c => ret (json (performance_json c))
       | None =>
           ret (status_json 500
                  (Obj [("error", Prim (or_else (VStr (message error))
                                          (VStr "Failed to fetch performance data")))]))
       end).

(** ** Trade history *)

Record trade : Type := Trade {
  timestamp : value;
  symbol : value;
  direction : value;
  pnl : number
}.

Definition trade_json (t : trade) : data :=
  Obj [("timestamp", Prim (timestamp t)); ("symbol", Prim (symbol t));
       ("direction", Prim (direction t)); ("pnl", Num (pnl t))].

(** The callback of [.map]. *)
Definition shape_trade (r : row) : result trade :=
  let timestamp := index r 0 in
  rbind (opt_toString (index r 1)) (fun s =>
  let symbol := or_else s (VStr "GOLD") in
  rbind (opt_toString (index r 2)) (fun d =>
  let direction := or_else d (VStr "BUY") in
  let pnl := parseFloat (or_else (index r 3) (VNum zero)) in
  Ok {| timestamp := timestamp; symbol := symbol; direction := direction;
        pnl := if isNaN pnl then zero else pnl |})).

(** [row => row.length >= 4]. *)
Definition has_all_fields (r : row) : bool := (4 <=? length r)%nat.

(** The callback of the second [.filter]; [typeof trade.pnl === 'number']
    holds of every [number]. *)
Definition is_complete (t : trade) : bool :=
  truthy (timestamp t) && truthy (symbol t) && truthy (direction t) && true.

Definition process_trades (values : list row) : result (list trade) :=
  rbind (rmap shape_trade (List.filter has_all_fields values)) (fun shaped =>
  Ok (rev (List.filter is_complete shaped))).

(** [GET /api/trade-history] *)
Definition trade_history (req : request) : M response :=
  try_catch
    (response_data <- values_get "Trade-History!B2:E" ;;
     values <- lift (data_values response_data) ;;
     match values with
     | None => ret (json (Arr []))
     | Some vs =>
         trades <- lift (process_trades vs) ;;
         ret (json (Arr (trade_json <$> trades)))
     end)
    (fun error =>
       e <- ask ;;
       ret (status_json 500
              (Obj [("error", Str "Failed to fetch trade history");
                    ("details", Prim (if strict_eq (NODE_ENV e) (VStr "development")
                                      then VStr (message error) else VUndef))]))).

(** ** PNL data *)

Record pnl_point : Type := PnlPoint { date : value; point_pnl : string }.

Definition pnl_point_json (p : pnl_point) : data :=
  Obj [("date", Prim (date p)); ("pnl", Str (point_pnl p))].

(** [row => row[0] && row[3] !== undefined]. *)
Definition has_date_and_pnl (r : row) : bool :=
  truthy (index r 0) && negb (strict_eq (index r 3) VUndef).

Definition shape_pnl (r : row) : pnl_point :=
  {| date := index r 0;
     point_pnl := toFixed2 (parseFloat (or_else (index r 3) (VNum zero))) |}.

Definition process_pnl (values : list row) : list pnl_point :=
  slice_last 20 (shape_pnl <$> List.filter has_date_and_pnl values).

(** [error.code === 429]. *)
Definition is_rate_limit (err : error) : bool :=
  match code err with
  | Some c => c =? 429
  | None => false
  end.

(** [GET /api/pnl-data] *)
Definition pnl_data (req : request) : M response :=
  try_catch
    (sleep 1000 ;;;
     response_data <- values_get "Trade-History!B2:E" ;;
     values <- lift (data_values response_data) ;;
     match values with
     | None => ret (json (Arr []))
     | Some vs => ret (json (Arr (pnl_point_json <$> process_pnl vs)))
     end)
    (fun error =>
       let status := if is_rate_limit error then 429 else 500 in
       let message := if is_rate_limit error then "Rate limit exceeded"
                      else "Internal server error" in
       ret (status_json status (error_json message))).

(** ** Google login, wallet, signup *)

Definition create_custom_token (uid : value) : M string :=
  fun e w => (createCustomToken e uid, w).

(** [POST /api/login/google] *)
Definition login_google (req : request) : M response :=
  try_catch
    (let idToken := body_idToken req in
     if falsy idToken then ret (status_json 400 (error_json "No ID token provided"))
     else
       decodedToken <- verify_id_token idToken ;;
       updateUserBalanceSheet {| displayName := token_name decodedToken;
                                 email := token_email decodedToken;
                                 phoneNumber := token_phone_number decodedToken |} ;;;
       customToken <- create_custom_token (token_uid decodedToken) ;;
       ret (json (Obj [("token", Str customToken);
                       ("user", decoded_token_data decodedToken)])))
    (fun error => ret (status_json 500 (error_json "Failed to authenticate with Google"))).

Definition wallet_json (userEmail : value) (balance earnings : number) : data :=
  Obj [("userEmail", Prim userEmail); ("balance", Num balance); ("earnings", Num earnings)].

(** [result] of the wallet endpoint, from the row [find] returned. *)
Definition wallet_result (userEmail : value) (found : option row) : data :=
  wallet_json userEmail
    (parseFloat (or_else (opt_index found 6) (VNum zero)))
    (parseFloat (or_else (opt_index found 5) (VNum zero))).

(** [GET /api/wallet-data] *)
Definition wallet_data (req : request) (u : user) : M response :=
  try_catch
    (let userEmail := user_email u in
     response_data <- values_get balance_range ;;
     values <- lift (data_values response_data) ;;
     match values with
     | None => ret (json (wallet_json userEmail zero zero))
     | Some vs =>
         let found := find (has_email userEmail) vs in
         ret (json (wallet_result userEmail found))
     end)
    (fun error => ret (status_json 500 (error_json "Failed to fetch wallet data"))).

(** [POST /api/signup] *)
Definition signup (req : request) (u : user) : M response :=
  try_catch
    (if negb (strict_eq (user_email u) (body_email req)) then
       ret (status_json 403
              (Obj [("success", Bool false);
                    ("message", Str "Token email does not match provided email")]))
     else
       updateUserBalanceSheet {| displayName := body_displayName req;
                                 email := body_email req;
                                 phoneNumber := body_phoneNumber req |} ;;;
       ret (status_json 200
              (Obj [("success", Bool true); ("message", Str "User created successfully")])))
    (fun error =>
       ret (status_json 500
              (Obj [("success", Bool false); ("message", Str "Internal server error");
                    ("details", Str (message error))]))).

(** The routing table: [app.get(path, authenticateToken, handler)] for the
    protected routes. *)
Inductive endpoint : Type :=
  | Root | VerifyToken | PerformanceData | TradeHistory | PnlData
  | LoginGoogle | WalletData | Signup.

Definition route (ep : endpoint) (req : request) : M response :=
  match ep with
  | Root => root req
  | VerifyToken => authenticateToken req (verify_token req)
  | PerformanceData => authenticateToken req (fun _ => performance_data req)
  | TradeHistory => authenticateToken req (fun _ => trade_history req)
  | PnlData => authenticateToken req (fun _ => pnl_data req)
  | LoginGoogle => login_google req
  | WalletData => authenticateToken req (wallet_data req)
  | Signup => authenticateToken req (signup req)
  end.

End Firebase.

(* ===================================================================== *)
(** * The server with split credential fields (server.js, lines 631-928) *)
(* ===================================================================== *)

Module FirebaseFields.
Import Js Http.
Local Open Scope handler_scope.

(** [authenticateToken]: here the extraction is outside the [try], and
    [req.user] is the decoded token itself. *)
Definition authenticateToken (req : request) (next : decoded_token -> M response) : M response :=
  token <- lift (bearer_token (authorization req)) ;;
  if falsy token then
    ret (status_json 401 (Firebase.error_json "No token provided"))
  else
    outcome <-
      try_catch
        (decodedToken <- verify_id_token token ;; ret (inr decodedToken))
        (fun error => ret (inl (status_json 403 (Firebase.error_json "Invalid token")))) ;;
    match outcome with
    | inl r => ret r
    | inr u => next u
    end.

(** [GET /api/verify-token] *)
Definition verify_token (req : request) (u : decoded_token) : M response :=
  ret (json (Obj [("success", Bool true); ("user", decoded_token_data u)])).

(** The performance, trade-history and pnl handlers are the same text as in
    the other Firebase variant. *)
Definition performance_data : request -> M response := Firebase.performance_data.
Definition trade_history : request -> M response := Firebase.trade_history.
Definition pnl_data : request -> M response := Firebase.pnl_data.

(** [POST /api/login/google]: no balance row is written here. *)
Definition login_google (req : request) : M response :=
  try_catch
    (let idToken := body_idToken req in
     if falsy idToken then
       ret (status_json 400 (Firebase.error_json "No ID token provided"))
     else
       decodedToken <- verify_id_token idToken ;;
       customToken <- Firebase.create_custom_token (token_uid decodedToken) ;;
       ret (json (Obj [("token", Str customToken);
                       ("user", decoded_token_data decodedToken)])))
    (fun error =>
       ret (status_json 500 (Firebase.error_json "Failed to authenticate with Google"))).

Inductive endpoint : Type :=
  | Root | VerifyToken | PerformanceData | TradeHistory | PnlData | LoginGoogle.

Definition route (ep : endpoint) (req : request) : M response :=
  match ep with
  | Root => Firebase.root req
  | VerifyToken => authenticateToken req (verify_token req)
  | PerformanceData => authenticateToken req (fun _ => performance_data req)
  | TradeHistory => authenticateToken req (fun _ => trade_history req)
  | PnlData => authenticateToken req (fun _ => pnl_data req)
  | LoginGoogle => login_google req
  end.

End FirebaseFields.

(* ===================================================================== *)
(** * The first server (server.js, lines 1-201): key file and jsonwebtoken *)
(* ===================================================================== *)

Module Legacy.
Import Js Http.
Local Open Scope handler_scope.

(** [authenticateToken]: declared under the comment "Add authentication
    middleware"; no route of this file mounts it. *)
Definition authenticateToken (req : request) (next : value -> M response) : M response :=
  token <- lift (bearer_token (authorization req)) ;;
  if falsy token then
    ret (status_json 401 (Firebase.error_json "No token provided"))
  else
    e <- ask ;;
    match jwt_verify e (ToString token) with
    | Throw err => ret (status_json 403 (Firebase.error_json "Invalid token"))
    | Ok user => next user
    end.

Definition metric (title : string) (rows : list row) (i : nat) : data :=
  Obj [("title", Str title);
       ("value", Prim (index (default [] (rows !! 1%nat)) i));
       ("change", Prim (index (default [] (rows !! 0%nat)) i))].

(** [GET /api/performance-data] *)
Definition performance_data (req : request) : M response :=
  try_catch
    (response_data <- values_get "Performance-Overview!B2:E3" ;;
     rows <- lift (data_values response_data) ;;
     match rows with
     | Some rs =>
         if (length rs <? 2)%nat then
           ret (status_json 404 (Firebase.error_json "No data found in spreadsheet"))
         else
           ret (json (Arr [ metric "This Week PNL" rs 0; metric "Last Week PNL" rs 1;
                            metric "Monthly PNL" rs 2; metric "Yearly PNL" rs 3 ]))
     | None => ret (status_json 404 (Firebase.error_json "No data found in spreadsheet"))
     end)
    (fun error => ret (status_json 500 (Firebase.error_json "Failed to fetch performance data"))).

Definition trade_json (r : row) : data :=
  Obj [("date", Prim (index r 0)); ("name", Prim (index r 1));
       ("tradeType", Prim (index r 2)); ("pnl", Prim (index r 3));
       ("open", Prim (index r 4)); ("close", Prim (index r 5))].

(** [GET /api/trade-history] *)
Definition trade_history (req : request) : M response :=
  try_catch
    (response_data <- values_get "Trade-History!A2:F" ;;
     values <- lift (data_values response_data) ;;
     match values with
     | None | Some [] => ret (json (Arr []))
     | Some vs => ret (json (Arr (rev (trade_json <$> vs))))
     end)
    (fun error => ret (status_json 500 (Firebase.error_json "Failed to fetch trade history"))).

(** Test users array (for development only). *)
Definition users : list (value * value) := [ (VStr "asb@gmail.com", VStr "123") ].

(** [POST /api/login] *)
Definition login (req : request) : M response :=
  try_catch
    (let email := body_email req in
     let password := body_password req in
     match find (fun u => strict_eq (fst u) email && strict_eq (snd u) password) users with
     | None =>
         ret (status_json 401
                (Obj [("success", Bool false); ("error", Str "Invalid credentials")]))
     | Some user =>
         e <- ask ;;
         let token := jwt_sign e (fst user) in
         ret (json (Obj [("success", Bool true); ("token", Str token);
                         ("message", Str "Login successful")]))
     end)
    (fun error =>
       ret (status_json 500
              (Obj [("success", Bool false); ("error", Str "Internal server error")]))).

(** [{ date: row[0], pnl: row[3] ? parseFloat(row[3]) : null }] *)
Definition shape_pnl (r : row) : data :=
  Obj [("date", Prim (index r 0));
       ("pnl", Prim (if truthy (index r 3) then VNum (parseFloat (index r 3)) else VNull))].

(** [GET /api/pnl-data] *)
Definition pnl_data (req : request) : M response :=
  try_catch
    (let sheetName := or_else (query_sheet req) (VStr "Trade-History") in
     response_data <- values_get (ToString sheetName +:+ "!A2:D") ;;
     values <- lift (data_values response_data) ;;
     match values with
     | None => ret (json (Arr []))
     | Some vs => ret (json (Arr (shape_pnl <$> vs)))
     end)
    (fun error =>
       ret (status_json 500
              (Obj [("error", Str "Failed to fetch PNL data");
                    ("details", Str (message error))]))).

Inductive endpoint : Type :=
  | Root | PerformanceData | TradeHistory | Login | PnlData.

Definition route (ep : endpoint) (req : request) : M response :=
  match ep with
  | Root => Firebase.root req
  | PerformanceData => performance_data req
  | TradeHistory => trade_history req
  | Login => login req
  | PnlData => pnl_data req
  end.

End Legacy.

(* ===================================================================== *)
(** * Vocabulary of the properties *)
(* ===================================================================== *)

Module Run.
Import Js Http.

(** The balance sheet as the API returns it. *)
Definition balance (w : world) : list row :=
  default [] (grid w !! Firebase.balance_range).



(** The two requests that reach [updateUserBalanceSheet]. *)
Inductive upsert_call : Type :=
  | GoogleLogin (req : request)     (* POST /api/login/google *)
  | SignUp (req : request).         (* POST /api/signup *)

Definition perform (c : upsert_call) : M response :=
  match c with
  | GoogleLogin req => Firebase.route Firebase.LoginGoogle req
  | SignUp req => Firebase.route Firebase.Signup req
  end.

(** The e-mail a call submits: the decoded token's for a Google login (none
    when the ID token does not verify), the body's for a signup. *)
Definition submitted_email (c : upsert_call) (e : env) : option value :=
  match c with
  | GoogleLogin req =>
      match body_idToken req with
      | VStr s =>
          match verifyIdToken e s with
          | Ok d => Some (token_email d)
          | Throw _ => None
          end
      | _ => None
      end
  | SignUp req => Some (body_email req)
  end.

Definition is_string (v : value) : bool :=
  match v with VStr _ => true | _ => false end.


(** Calls served one after the other, each in its own environment and each
    answered before the next arrives: the schedule [Overlap.in_turn] of the
    machine that interleaves requests. *)
Fixpoint perform_all (l : list (upsert_call * env)) (w : world) : world :=
  match l with
  | [] => w
  | (c, e) :: l' => perform_all l' (serve (perform c) e w).2
  end.

(** The writes among the downstream calls. *)
Definition is_write (c : call) : bool :=
  match c with Append _ _ => true | Get _ => false end.

Definition writes (l : list call) : list call := List.filter is_write l.

(** ** Row shaping, as total functions *)

(** A cell that is absent or empty. *)
Definition missing (v : value) : bool :=
  match v with
  | VUndef | VNull | VStr EmptyString => true
  | _ => false
  end.

Definition text_or (cell : value) (dflt : string) : value :=
  if missing cell then VStr dflt else VStr (ToString cell).

(** A falsy cell counts as 0; so does one that does not parse. *)
Definition amount (cell : value) : number :=
  if falsy cell then zero else parseFloat cell.

Definition amount_or_zero (cell : value) : number :=
  if isNaN (amount cell) then zero else amount cell.

Definition trade_of (r : row) : Firebase.trade :=
  {| Firebase.timestamp := index r 0;
     Firebase.symbol := text_or (index r 1) "GOLD";
     Firebase.direction := text_or (index r 2) "BUY";
     Firebase.pnl := amount_or_zero (index r 3) |}.

(** The rows the trade-history endpoint keeps. *)
Definition kept (r : row) : bool :=
  Firebase.has_all_fields r && truthy (index r 0).

(** ** Two-decimal strings *)

Fixpoint all_digits (s : string) : bool :=
  match s with
  | EmptyString => true
  | String c r => is_digit c && all_digits r
  end.

(** Digits (at least one if [seen] is false), a point, two digits, the end. *)
Fixpoint fixed2_from (s : string) (seen : bool) : bool :=
  match s with
  | EmptyString => false
  | String c r =>
      if is_digit c then fixed2_from r true
      else
        Ascii.eqb c "." && seen &&
        match r with
        | String a (String b EmptyString) => is_digit a && is_digit b
        | _ => false
        end
  end.

(** An optional minus sign, then an integer part and two decimals. *)
Definition two_decimals (s : string) : bool :=
  fixed2_from s false
  || match s with
     | String "-" r => fixed2_from r false
     | _ => false
     end.

(** Finite and below 1e21 in magnitude. *)
Definition below_1e21 (x : number) : bool :=
  match x with
  | S754_zero _ => true
  | S754_finite _ m e => let '(N, D) := ratio m e in N <? 10 ^ 21 * D
  | _ => false
  end.

(** ** Sample surroundings *)

(** An identity provider that knows the token ["good"] of ["ann@example.com"]
    and rejects every other. *)
Definition ann : decoded_token :=
  {| token_email := VStr "ann@example.com"; token_name := VStr "Ann";
     token_uid := VStr "u1"; token_phone_number := VUndef |}.

Definition sample_env (r : downstream) : env :=
  {| verifyIdToken := fun t =>
       if String.eqb t "good" then Ok ann
       else Throw (new_Error "Decoding Firebase ID token failed");
     createCustomToken := fun _ => Ok "custom";
     jwt_verify := fun _ => Throw (new_Error "jwt malformed");
     jwt_sign := fun _ => "signed";
     reads := r;
     appends := None;
     latency := 50;
     NODE_ENV := VStr "production" |}.

Definition bare_request : request :=
  {| authorization := None; body_idToken := VUndef; body_email := VUndef;
     body_password := VUndef; body_displayName := VUndef;
     body_phoneNumber := VUndef; query_sheet := VUndef |}.

Definition with_authorization (h : string) (req : request) : request :=
  {| authorization := Some h; body_idToken := body_idToken req;
     body_email := body_email req; body_password := body_password req;
     body_displayName := body_displayName req;
     body_phoneNumber := body_phoneNumber req; query_sheet := query_sheet req |}.

Definition with_idToken (t : string) (req : request) : request :=
  {| authorization := authorization req; body_idToken := VStr t;
     body_email := body_email req; body_password := body_password req;
     body_displayName := body_displayName req;
     body_phoneNumber := body_phoneNumber req; query_sheet := query_sheet req |}.

Definition with_email (m : string) (req : request) : request :=
  {| authorization := authorization req; body_idToken := body_idToken req;
     body_email := VStr m; body_password := body_password req;
     body_displayName := body_displayName req;
     body_phoneNumber := body_phoneNumber req; query_sheet := query_sheet req |}.

(** A world at time [t] with an empty cache and the given ranges. *)
Definition sample_world (t : Z) (ranges : list (string * list row)) : world :=
  {| now := t; cache := ∅; grid := list_to_map ranges; calls := [] |}.

(** A numeric cell, written in decimal. *)
Definition cell (s : string) : value := VNum (parseFloat_string s).

(** [Trade-History!H1:N1] *)
Definition perf_row : row :=
  [cell "12.5"; VStr EmptyString; cell "-3.25"; VStr EmptyString; cell "40.6"; VStr EmptyString; cell "310.2"].

(** [Performance-Overview!B2:E3] *)
Definition overview_rows : list row :=
  [ [VStr "+2%"; VStr "-1%"; VStr "+5%"; VStr "+12%"];
    [VStr "120"; VStr "-40"; VStr "900"; VStr "4100"] ].


Definition ann_signup : upsert_call :=
  SignUp (with_email "ann@example.com" (with_authorization "Bearer good" bare_request)).

Definition ann_user : Firebase.user :=
  {| Firebase.user_email := VStr "ann@example.com";
     Firebase.user_displayName := VStr "Ann";
     Firebase.user_uid := VStr "u1" |}.

Definition ann_row : row :=
  [VStr "Ann"; VStr "ann@example.com"; VStr EmptyString; cell "100"; cell "4"; cell "7.5"; cell "107.5"].

(** ** Authentication *)

(** The routes the Firebase variant mounts behind [authenticateToken]. *)
Definition protected : list Firebase.endpoint :=
  [Firebase.VerifyToken; Firebase.PerformanceData; Firebase.TradeHistory;
   Firebase.PnlData; Firebase.WalletData; Firebase.Signup].

Definition protected_fields : list FirebaseFields.endpoint :=
  [FirebaseFields.VerifyToken; FirebaseFields.PerformanceData;
   FirebaseFields.TradeHistory; FirebaseFields.PnlData].

(** Whether the identity provider accepts the token. *)
Definition verifies (e : env) (token : value) : bool :=
  match token with
  | VStr s => match verifyIdToken e s with Ok _ => true | Throw _ => false end
  | _ => false
  end.

(** The first code units a numeric prefix can start with, blanks included. *)
Definition starts_numeric (c : ascii) : bool :=
  is_whitespace c || is_digit c || Ascii.eqb c "+" || Ascii.eqb c "-"
  || Ascii.eqb c "." || Ascii.eqb c "I".

End Run.

(* ===================================================================== *)
(** * Requests that overlap *)
(* ===================================================================== *)

(** A handler runs without interruption from one [await] to the next, and
    other requests run while it waits. Here the handlers that share the
    cache or the balance sheet are cut at their awaited spreadsheet calls,
    and a machine interleaves the pieces. The awaited calls to the identity
    provider neither read nor write what requests share and are not cut. *)
Module Overlap.
Import Js Http Run.
Local Open Scope handler_scope.
#[local] Set Warnings "-register-all".

(** A handler after one run: it has answered, or it waits for
    [values.get] or for [values.append], [k] being what it does with the
    settled call. *)
Inductive stage : Type :=
  | Answered (r : response)
  | Reading (range : string) (k : result (option (option (list row))) -> M stage)
  | Appending (range : string) (r : row) (k : result unit -> M stage).

(** The call leaves the server. *)
Definition send (c : call) : M unit := fun _ w => (Ok tt, log_call c w).

(** What [values.get] settles with: the range as it is then. *)
Definition got (range : string) (e : env) (w : world)
  : result (option (option (list row))) :=
  match reads e with
  | Healthy => Ok (Some (grid w !! range))
  | Rejects err => Throw err
  | Bodyless => Ok None
  end.

(** What [values.append] settles with: the row goes after the last row the
    range has then. *)
Definition appended (range : string) (r : row) (e : env) (w : world)
  : result unit * world :=
  match appends e with
  | Some err => (Throw err, w)
  | None => (Ok tt, set_grid (<[range := default [] (grid w !! range) ++ [r]]> (grid w)) w)
  end.

(** The awaited call settles and the handler runs on to its next stage. *)
Definition settle (st : stage) : M stage :=
  fun e w =>
    match st with
    | Answered r => (Ok st, w)
    | Reading range k => k (got range e w) e w
    | Appending range r k => let '(a, w') := appended range r e w in k a e w'
    end.

(** ** [GET /api/performance-data], lines 376-419 *)

(** The [catch] block. *)
Definition performance_data_catch (err : error) : M response :=
  cachedData <- cache_get "performance-data" ;;
  match cachedData with
  | Some c => ret (json (Firebase.performance_json c))
  | None =>
      ret (status_json 500
             (Obj [("error", Prim (or_else (VStr (message err))
                                     (VStr "Failed to fetch performance data")))]))
  end.

(** From the settled read on; [cachedData] is what the opening
    [cache.get] of line 378 returned. *)
Definition performance_data_settled (cachedData : option performance)
    (settled : result (option (option (list row)))) : M stage :=
  r <- try_catch
         (response_data <- lift settled ;;
          match response_data with
          | Some (Some (values :: _)) =>
              let result := Firebase.formattedResult values in
              cache_set "performance-data" result 30 ;;;
              ret (json (Firebase.performance_json result))
          | _ =>
              match cachedData with
              | Some c => ret (json (Firebase.performance_json c))
              | None => throw (new_Error "No data found in spreadsheet")
              end
          end)
         performance_data_catch ;;
  ret (Answered r).

(** A request waits for its read only after a miss. *)
Definition performance_data_waiting : stage :=
  Reading "Trade-History!H1:N1" (performance_data_settled None).

(** Up to the awaited read. *)
Definition performance_data (req : request) : M stage :=
  cachedData <- cache_get "performance-data" ;;
  match cachedData with
  | Some c => ret (Answered (json (Firebase.performance_json c)))
  | None => send (Get "Trade-History!H1:N1") ;;; ret performance_data_waiting
  end.

(** ** [updateUserBalanceSheet], lines 321-363 *)

(** [throw new Error(`Failed to update sheet: ${error.message}`)] *)
Definition failed_update (err : error) : error :=
  new_Error ("Failed to update sheet: " +:+ message err).

(** From the settled append on; [k] is what the caller does with the
    outcome of [await updateUserBalanceSheet(...)]. *)
Definition balance_appended (k : result unit -> M stage) (settled : result unit) : M stage :=
  match settled with
  | Ok _ => k (Ok tt)
  | Throw error => k (Throw (failed_update error))
  end.

(** From the settled read to the awaited append. *)
Definition balance_read (u : Firebase.userData) (k : result unit -> M stage)
    (settled : result (option (option (list row)))) : M stage :=
  match rbind settled data_values with
  | Throw error => k (Throw (failed_update error))
  | Ok values =>
      let existingData := default [] values in
      match findIndex (Firebase.has_email (Firebase.email u)) existingData with
      | Some _ => k (Ok tt)
      | None =>
          send (Append Firebase.balance_range (Firebase.newRow u)) ;;;
          ret (Appending Firebase.balance_range (Firebase.newRow u) (balance_appended k))
      end
  end.

Definition updateUserBalanceSheet (u : Firebase.userData) (k : result unit -> M stage)
  : M stage :=
  send (Get Firebase.balance_range) ;;;
  ret (Reading Firebase.balance_range (balance_read u k)).

(** ** [POST /api/login/google], lines 505-530 *)

Definition login_google_catch (err : error) : M response :=
  ret (status_json 500 (Firebase.error_json "Failed to authenticate with Google")).

(** From the return of [updateUserBalanceSheet] on. *)
Definition login_google_updated (decodedToken : decoded_token) (outcome : result unit)
  : M stage :=
  r <- try_catch
         (lift outcome ;;;
          customToken <- Firebase.create_custom_token (token_uid decodedToken) ;;
          ret (json (Obj [("token", Str customToken);
                          ("user", decoded_token_data decodedToken)])))
         login_google_catch ;;
  ret (Answered r).

Definition login_google (req : request) : M stage :=
  first <-
    try_catch
      (let idToken := body_idToken req in
       if falsy idToken then
         ret (inl (status_json 400 (Firebase.error_json "No ID token provided")))
       else
         decodedToken <- verify_id_token idToken ;;
         ret (inr decodedToken))
      (fun error => r <- login_google_catch error ;; ret (inl r)) ;;
  match first with
  | inl r => ret (Answered r)
  | inr decodedToken =>
      updateUserBalanceSheet
        {| Firebase.displayName := token_name decodedToken;
           Firebase.email := token_email decodedToken;
           Firebase.phoneNumber := token_phone_number decodedToken |}
        (login_google_updated decodedToken)
  end.

(** ** [POST /api/signup], lines 567-599 *)

Definition signup_catch (err : error) : M response :=
  ret (status_json 500
         (Obj [("success", Bool false); ("message", Str "Internal server error");
               ("details", Str (message err))])).

Definition signup_updated (outcome : result unit) : M stage :=
  r <- try_catch
         (lift outcome ;;;
          ret (status_json 200
                 (Obj [("success", Bool true);
                       ("message", Str "User created successfully")])))
         signup_catch ;;
  ret (Answered r).

Definition signup (req : request) (u : Firebase.user) : M stage :=
  if negb (strict_eq (Firebase.user_email u) (body_email req)) then
    ret (Answered
           (status_json 403
              (Obj [("success", Bool false);
                    ("message", Str "Token email does not match provided email")])))
  else
    updateUserBalanceSheet
      {| Firebase.displayName := body_displayName req;
         Firebase.email := body_email req;
         Firebase.phoneNumber := body_phoneNumber req |}
      signup_updated.

(** ** [authenticateToken], lines 299-319 *)

(** The middleware up to [next()]: its own answer, or [req.user]. *)
Definition authenticated (req : request) : M (response + Firebase.user) :=
  try_catch
    (token <- lift (bearer_token (authorization req)) ;;
     if falsy token then
       ret (inl (status_json 401 (Firebase.error_json "No token provided")))
     else
       decodedToken <- verify_id_token token ;;
       displayName <-
         (if truthy (token_name decodedToken) then ret (token_name decodedToken)
          else parts <- lift (split (token_email decodedToken) "@") ;;
               ret (index parts 0)) ;;
       ret (inr {| Firebase.user_email := token_email decodedToken;
                   Firebase.user_displayName := displayName;
                   Firebase.user_uid := token_uid decodedToken |}))
    (fun error => ret (inl (status_json 403 (Firebase.error_json "Invalid token")))).

Definition authenticateToken (req : request) (next : Firebase.user -> M stage) : M stage :=
  outcome <- authenticated req ;;
  match outcome with
  | inl r => ret (Answered r)
  | inr u => next u
  end.

(** The two requests that reach [updateUserBalanceSheet]. *)
Definition perform (c : upsert_call) : M stage :=
  match c with
  | GoogleLogin req => login_google req
  | SignUp req => authenticateToken req (signup req)
  end.

(** ** The machine *)

(** What requests share, and the requests that wait, each with its
    environment, in the order they began to wait. *)
Record state : Type := State {
  shared : world;
  in_flight : list (env * stage)
}.

Definition idle (w : world) : state := {| shared := w; in_flight := [] |}.

Section Machine.
Context {Req : Type}.

(** What happens, and when: a request arrives, the awaited call of the
    [i]-th waiting request settles, or the owner of the spreadsheet replaces
    the rows of a range. *)
Inductive event : Type :=
  | Arrives (t : Z) (e : env) (req : Req)
  | Settles (t : Z) (i : nat)
  | Edited (range : string) (rows : list row).

Context (handler : Req -> M stage).

(** One event: the response it makes the server send, if any, and the
    state it leaves. A handler that throws past its own [catch] sends
    nothing. *)
Definition step (ev : event) (s : state) : option response * state :=
  match ev with
  | Arrives t e req =>
      match handler req e (set_now t (shared s)) with
      | (Ok (Answered r), w) => (Some r, {| shared := w; in_flight := in_flight s |})
      | (Ok st, w) => (None, {| shared := w; in_flight := in_flight s ++ [(e, st)] |})
      | (Throw _, w) => (None, {| shared := w; in_flight := in_flight s |})
      end
  | Settles t i =>
      match in_flight s !! i with
      | None => (None, s)
      | Some (e, st) =>
          match settle st e (set_now t (shared s)) with
          | (Ok (Answered r), w) =>
              (Some r, {| shared := w; in_flight := delete i (in_flight s) |})
          | (Ok st', w) =>
              (None, {| shared := w; in_flight := <[i := (e, st')]> (in_flight s) |})
          | (Throw _, w) =>
              (None, {| shared := w; in_flight := delete i (in_flight s) |})
          end
      end
  | Edited range rows =>
      (None, {| shared := set_grid (<[range := rows]> (grid (shared s))) (shared s);
                in_flight := in_flight s |})
  end.

Fixpoint run (evs : list event) (s : state) : list (option response) * state :=
  match evs with
  | [] => ([], s)
  | ev :: evs' =>
      let '(r, s') := step ev s in
      let '(rs, s'') := run evs' s' in
      (r :: rs, s'')
  end.

(** A request served alone: it arrives at [t] and each call it awaits
    settles [latency e] later. No handler awaits more than two calls. *)
Definition alone (t : Z) (e : env) (req : Req) : list event :=
  [Arrives t e req; Settles (t + latency e) 0; Settles (t + latency e + latency e) 0].


(** Requests arriving one after the other. *)
Definition arrivals (l : list (Z * env * Req)) : list event :=
  (fun x => Arrives x.1.1 x.1.2 x.2) <$> l.

End Machine.

(** Upserts served in turn, each arriving at the moment the one before is
    answered. *)
Fixpoint in_turn (l : list (upsert_call * env)) (s : state) : state :=
  match l with
  | [] => s
  | (c, e) :: l' => in_turn l' (run perform (alone (now (shared s)) e c) s).2
  end.

(** The responses sent, in order. *)
Definition sent (rs : list (option response)) : list response := omap id rs.

End Overlap.

(* ===================================================================== *)
(** * The tunnel script: rewriting the client's [.env] *)
(* ===================================================================== *)

Module Ngrok.
Import Js.

(** The literal part of [/REACT_APP_API_URL=.*/]. *)
Definition key : string := "REACT_APP_API_URL=".

(** What [.] does not match: LF and CR among the code units below 256. *)
Definition is_line_terminator (c : ascii) : bool :=
  match nat_of_ascii c with
  | 10 | 13 => true
  | _ => false
  end%nat.

(** [.*]: the longest run without a line terminator, and what follows. *)
Fixpoint match_dots (s : string) : string * string :=
  match s with
  | String c r =>
      if is_line_terminator c then (EmptyString, s)
      else let '(m, rest) := match_dots r in (String c m, rest)
  | EmptyString => (EmptyString, EmptyString)
  end.

(** The leftmost occurrence of a literal: what precedes it and what
    follows it. *)
Fixpoint search (pat s : string) {struct s} : option (string * string) :=
  if String.prefix pat s then Some (EmptyString, drop_str (String.length pat) s)
  else
    match s with
    | EmptyString => None
    | String c r =>
        match search pat r with
        | Some (b, a) => Some (String c b, a)
        | None => None
        end
    end.

(** GetSubstitution for a pattern without capture groups: [$$], [$&],
    [$`] and [$'] are expanded, any other [$] stands for itself. *)
Fixpoint substitution (matched before after template : string) : string :=
  match template with
  | EmptyString => EmptyString
  | String c r =>
      if Ascii.eqb c "$" then
        match r with
        | EmptyString => String c EmptyString
        | String d r' =>
            if Ascii.eqb d "$" then String "$" (substitution matched before after r')
            else if Ascii.eqb d "&" then matched +:+ substitution matched before after r'
            else if Ascii.eqb d "`" then before +:+ substitution matched before after r'
            else if Ascii.eqb d "'" then after +:+ substitution matched before after r'
            else String c (String d (substitution matched before after r'))
        end
      else String c (substitution matched before after r)
  end.

(** [envContent.replace(/REACT_APP_API_URL=.*/, `REACT_APP_API_URL=${url}`)]:
    the first match is replaced, a string without a match is returned as
    it is. *)
Definition replace_api_url (url envContent : string) : string :=
  match search key envContent with
  | None => envContent
  | Some (before, tail) =>
      let '(dots, after) := match_dots tail in
      before +:+ substitution (key +:+ dots) before after (key +:+ url) +:+ after
  end.

End Ngrok.

(* ===================================================================== *)
(** * Vocabulary of the further properties *)
(* ===================================================================== *)

Module Cover.
Import Js Http Run.

(** The code unit [c] does not occur in [s]. *)
Fixpoint lacks (c : ascii) (s : string) : bool :=
  match s with
  | EmptyString => true
  | String a r => negb (Ascii.eqb a c) && lacks c r
  end.

(** The routes of the Firebase variant other than the two that upsert. *)
Definition read_routes : list Firebase.endpoint :=
  [Firebase.Root; Firebase.VerifyToken; Firebase.PerformanceData;
   Firebase.TradeHistory; Firebase.PnlData; Firebase.WalletData].

(** The statuses the routes of the Firebase variant answer with. *)
Definition known_status (z : Z) : bool :=
  existsb (Z.eqb z) [200; 400; 401; 403; 429; 500].

(** A handler that always answers, with a known status; unless it is the
    performance handler it leaves the cache alone, and unless it upserts it
    leaves the spreadsheet alone and issues at most one read. *)
Definition well_behaved (upserts caches : bool) (h : M response) : Prop :=
  forall e w, exists r w',
    h e w = (Ok r, w')
    /\ known_status (status r) = true
    /\ (caches = false -> cache w' = cache w)
    /\ (upserts = false ->
        grid w' = grid w
        /\ (calls w' = calls w \/ exists range, calls w' = calls w ++ [Get range])).

(** The value the client's file assigns: what follows the first
    [REACT_APP_API_URL=] up to the end of its line. *)
Definition read_api_url (envContent : string) : option string :=
  match Ngrok.search Ngrok.key envContent with
  | Some (_, tail) => Some (Ngrok.match_dots tail).1
  | None => None
  end.

Fixpoint lacks_terminators (s : string) : bool :=
  match s with
  | EmptyString => true
  | String a r => negb (Ngrok.is_line_terminator a) && lacks_terminators r
  end.

(** The end of the text or a line terminator comes next. *)
Definition at_line_end (s : string) : bool :=
  match s with
  | EmptyString => true
  | String c _ => Ngrok.is_line_terminator c
  end.

(** A URL that the replacement takes literally and that stays on its line. *)
Definition plain (url : string) : bool := lacks "$" url && lacks_terminators url.

(** ** Sample surroundings *)

(** A token of an anonymous account: no name, no e-mail. *)
Definition anonymous : decoded_token :=
  {| token_email := VUndef; token_name := VUndef;
     token_uid := VStr "u9"; token_phone_number := VUndef |}.

(** A token with an e-mail and no name. *)
Definition nameless : decoded_token :=
  {| token_email := VStr "bob.k@example.com"; token_name := VUndef;
     token_uid := VStr "u2"; token_phone_number := VUndef |}.

(** An identity provider that knows ["good"], ["anon"] and ["bob"]. *)
Definition wide_env (r : downstream) (mode : string) : env :=
  {| verifyIdToken := fun t =>
       if String.eqb t "good" then Ok ann
       else if String.eqb t "anon" then Ok anonymous
       else if String.eqb t "bob" then Ok nameless
       else Throw (new_Error "Decoding Firebase ID token failed");
     createCustomToken := fun _ => Ok "custom";
     jwt_verify := fun _ => Throw (new_Error "jwt malformed");
     jwt_sign := fun _ => "signed";
     reads := r;
     appends := None;
     latency := 50;
     NODE_ENV := VStr mode |}.

Definition outage : error :=
  {| name := "Error"; message := "socket hang up"; code := None |}.

Definition rate_limited : error :=
  {| name := "Error"; message := "Quota exceeded for quota metric"; code := Some 429 |}.

Definition with_password (p : string) (req : request) : request :=
  {| authorization := authorization req; body_idToken := body_idToken req;
     body_email := body_email req; body_password := VStr p;
     body_displayName := body_displayName req;
     body_phoneNumber := body_phoneNumber req; query_sheet := query_sheet req |}.

Definition client_env : string :=
  "PORT=3000" +:+ String "010" ("REACT_APP_API_URL=http://localhost:3001" +:+
  String "010" "REACT_APP_ENV=dev").

End Cover.

(* ===================================================================== *)
(** * Properties *)
(* ===================================================================== *)

Import Js Http Run.

Arguments parseFloat : simpl never.
Arguments toFixed2 : simpl never.
Arguments Math_round : simpl never.
Arguments number_to_string : simpl never.

(** Unfolds the monad's operations in a handler applied to an environment
    and a world. *)
Ltac run_handler :=
  unfold bind, try_catch, ret, lift, throw, ask, sleep in *; simpl in *.

(** ** Lists and strings *)

Lemma findIndex_None {A} (p : A -> bool) (l : list A) :
  findIndex p l = None <-> existsb p l = false.
Proof.
  induction l as [|x l IH]; simpl; [done|].
  destruct (p x); simpl; [split; discriminate|].
  rewrite <- IH. destruct (findIndex p l); simpl; split; congruence.
Qed.

Lemma existsb_findIndex {A} (p : A -> bool) (l : list A) :
  existsb p l = true -> exists i, findIndex p l = Some i.
Proof.
  intros H. destruct (findIndex p l) eqn:Hf; [eauto|].
  apply findIndex_None in Hf. congruence.
Qed.



Lemma rmap_total {A B} (f : A -> result B) (g : A -> B) (l : list A) :
  (forall x, f x = Ok (g x)) -> rmap f l = Ok (g <$> l).
Proof.
  intros H. induction l as [|x l IH]; simpl; [done|]. by rewrite H, IH.
Qed.

Lemma filter_fmap {A B} (p : B -> bool) (g : A -> B) (l : list A) :
  List.filter p (g <$> l) = g <$> List.filter (fun x => p (g x)) l.
Proof.
  induction l as [|x l IH]; [done|].
  rewrite fmap_cons. cbn [List.filter].
  destruct (p (g x)); by rewrite ?fmap_cons, IH.
Qed.

Lemma filter_filter {A} (p q : A -> bool) (l : list A) :
  List.filter p (List.filter q l) = List.filter (fun x => q x && p x) l.
Proof.
  induction l as [|x l IH]; simpl; [done|].
  destruct (q x); simpl; [destruct (p x); simpl|]; by rewrite IH.
Qed.

Lemma app_singleton_neq {A} (l : list A) (x : A) : l <> l ++ [x].
Proof.
  intros H. apply (f_equal length) in H. rewrite length_app in H. simpl in H. lia.
Qed.




Lemma append_nonempty_l (a b : string) : a <> EmptyString -> a +:+ b <> EmptyString.
Proof. destruct a; simpl; [done|discriminate]. Qed.

Lemma append_nonempty_r (a b : string) : b <> EmptyString -> a +:+ b <> EmptyString.
Proof. destruct a; simpl; [done|discriminate]. Qed.

Lemma length_append (a b : string) :
  String.length (a +:+ b) = (String.length a + String.length b)%nat.
Proof. induction a; simpl; [done|]. by rewrite IHa. Qed.

Lemma length_zeros (n : nat) : String.length (zeros n) = n.
Proof. induction n; simpl; [done|]. by rewrite IHn. Qed.

(** ** Digits *)

Lemma is_digit_digit_char (d : Z) : 0 <= d < 10 -> is_digit (digit_char d) = true.
Proof.
  intros H.
  assert (d = 0 \/ d = 1 \/ d = 2 \/ d = 3 \/ d = 4 \/ d = 5 \/ d = 6 \/ d = 7 \/ d = 8 \/ d = 9)
    as Hd by lia.
  repeat (destruct Hd as [->|Hd]; [reflexivity|]). by subst.
Qed.

Lemma digits_fuel_nonempty (f : nat) (n : Z) (acc : string) :
  digits_fuel (S f) n acc <> EmptyString.
Proof.
  revert n acc. induction f as [|f IH]; intros n acc; simpl.
  - by destruct (n / 10 =? 0).
  - destruct (n / 10 =? 0); [done|]. apply IH.
Qed.

Lemma digits_nonempty (n : Z) : digits n <> EmptyString.
Proof. apply digits_fuel_nonempty. Qed.

Lemma all_digits_app (a b : string) :
  all_digits (a +:+ b) = all_digits a && all_digits b.
Proof.
  induction a as [|c a IH]; simpl; [done|]. by rewrite IH, andb_assoc.
Qed.

Lemma all_digits_digits_fuel (f : nat) (n : Z) (acc : string) :
  all_digits acc = true -> all_digits (digits_fuel f n acc) = true.
Proof.
  revert n acc. induction f as [|f IH]; intros n acc Hacc; simpl; [done|].
  assert (all_digits (String (digit_char (n mod 10)) acc) = true) as H.
  { simpl. rewrite Hacc, is_digit_digit_char; [done|]. apply Z.mod_pos_bound. lia. }
  destruct (n / 10 =? 0); [done|]. by apply IH.
Qed.

Lemma all_digits_digits (n : Z) : all_digits (digits n) = true.
Proof. by apply all_digits_digits_fuel. Qed.

Lemma all_digits_zeros (n : nat) : all_digits (zeros n) = true.
Proof. induction n; simpl; [done|]. by rewrite IHn. Qed.

(** ** Number to string *)

Lemma format_decimal_nonempty (ds : string) (k n : Z) :
  ds <> EmptyString -> format_decimal ds k n <> EmptyString.
Proof.
  intros Hds. unfold format_decimal.
  repeat case_match; try (by apply append_nonempty_l);
    try (apply append_nonempty_r; by apply append_nonempty_l); done.
Qed.

Lemma number_to_string_nonempty (x : number) : number_to_string x <> EmptyString.
Proof.
  unfold number_to_string. destruct x as [s|s| |s m e]; try done; [by destruct s|].
  repeat case_match; apply append_nonempty_r, format_decimal_nonempty, digits_nonempty.
Qed.

Lemma truthy_text (s : string) : s <> EmptyString -> truthy (VStr s) = true.
Proof. by destruct s. Qed.

Lemma ToString_nonempty (v : value) : missing v = false -> ToString v <> EmptyString.
Proof.
  destruct v as [| |b|x|s]; simpl; try done.
  - by destruct b.
  - intros _. apply number_to_string_nonempty.
  - by destruct s.
Qed.

Lemma truthy_text_or (c : value) (d : string) :
  d <> EmptyString -> truthy (text_or c d) = true.
Proof.
  intros Hd. unfold text_or. destruct (missing c) eqn:Hm.
  - by apply truthy_text.
  - by apply truthy_text, ToString_nonempty.
Qed.

Lemma parseFloat_zero : parseFloat (VNum zero) = zero.
Proof. reflexivity. Qed.

(** [parseFloat(c || 0)] *)
Lemma parseFloat_or_zero (c : value) : parseFloat (or_else c (VNum zero)) = amount c.
Proof.
  unfold amount, or_else, falsy. destruct (truthy c); simpl; [done|].
  apply parseFloat_zero.
Qed.

(** A string that starts with none of the code units a number can start
    with does not parse. *)
Lemma not_a_number (c : ascii) (r : string) :
  starts_numeric c = false -> parseFloat (VStr (String c r)) = NaN.
Proof.
  unfold parseFloat, ToString, parseFloat_string.
  destruct c as [[] [] [] [] [] [] [] []]; intros H; try discriminate H; reflexivity.
Qed.

(** ** Two decimals *)

(** Digits, a point and the last two digits make a two-decimal string. *)
Lemma fixed2_from_split (m : string) (seen : bool) :
  all_digits m = true ->
  (3 <= String.length m)%nat \/ (seen = true /\ (2 <= String.length m)%nat) ->
  fixed2_from (take_str (String.length m - 2) m +:+ "." +:+ drop_str (String.length m - 2) m) seen
  = true.
Proof.
  revert seen. induction m as [|c m IH]; intros seen Hd Hlen; [simpl in *; lia|].
  cbn [all_digits] in Hd. apply andb_prop in Hd as [Hc Hm].
  cbn [String.length] in *.
  remember (String.length m) as n eqn:Hn.
  destruct n as [|[|k]].
  - lia.
  - destruct Hlen as [?|[-> _]]; [lia|].
    destruct m as [|a [|b m]]; simpl in Hn; try lia.
    cbn [all_digits] in Hm. apply andb_prop in Hm as [Ha _].
    change (fixed2_from (String "." (String c (String a EmptyString))) true = true).
    cbn [fixed2_from]. by rewrite Hc, Ha.
  - replace (S (S (S k)) - 2)%nat with (S k) by lia.
    change (fixed2_from (String c (take_str k m +:+ "." +:+ drop_str k m)) seen = true).
    cbn [fixed2_from]. rewrite Hc.
    specialize (IH true Hm).
    replace (S (S k) - 2)%nat with k in IH by lia.
    apply IH. right. split; [done|lia].
Qed.

Lemma fixed2_of_hundredths_fixed (n : Z) :
  fixed2_from (fixed2_of_hundredths n) false = true.
Proof.
  unfold fixed2_of_hundredths.
  set (m1 := if (_ <=? 2)%nat then _ else _).
  apply fixed2_from_split.
  - unfold m1. case_match; rewrite ?all_digits_app, ?all_digits_zeros; simpl;
      apply all_digits_digits.
  - left. unfold m1. destruct (Nat.leb_spec (String.length (digits n)) 2) as [H|H].
    + rewrite length_append, length_zeros.
      pose proof (digits_nonempty n) as Hne.
      destruct (digits n); simpl in *; [done|lia].
    + lia.
Qed.

Lemma two_decimals_plain (r : string) :
  fixed2_from r false = true -> two_decimals r = true.
Proof. intros H. unfold two_decimals. by rewrite H. Qed.

Lemma two_decimals_minus (r : string) :
  fixed2_from r false = true -> two_decimals (String "-" r) = true.
Proof. intros H. unfold two_decimals. rewrite H. apply orb_true_r. Qed.

(** [toFixed(2)] of a finite number below 1e21 has two decimals. *)
Lemma toFixed2_two_decimals (x : number) :
  below_1e21 x = true -> two_decimals (toFixed2 x) = true.
Proof.
  unfold below_1e21, toFixed2.
  destruct x as [s|s| |s m e]; try discriminate.
  - intros _. apply two_decimals_plain, fixed2_of_hundredths_fixed.
  - destruct (ratio m e) as [N D]. intros H.
    destruct (Z.leb_spec (10 ^ 21 * D) N) as [Hle|_]; [lia|].
    destruct s.
    + apply two_decimals_minus, fixed2_of_hundredths_fixed.
    + apply two_decimals_plain, fixed2_of_hundredths_fixed.
Qed.

(** ** Authentication *)

Lemma bearer_token_total (h : option string) : exists token, bearer_token h = Ok token.
Proof.
  unfold bearer_token. destruct h as [h|]; [|eauto].
  destruct (truthy (VStr h)); simpl; eauto.
Qed.

(** The middleware answers 401 without a token and 403 with one the
    identity provider rejects, and leaves the world as it is. *)
Lemma authenticateToken_rejects (req : request) (next : Firebase.user -> M response)
    (e : env) (w : world) (token : value) :
  bearer_token (authorization req) = Ok token ->
  (falsy token = true ->
   Firebase.authenticateToken req next e w
   = (Ok (status_json 401 (Firebase.error_json "No token provided")), w))
  /\ (falsy token = false -> verifies e token = false ->
      Firebase.authenticateToken req next e w
      = (Ok (status_json 403 (Firebase.error_json "Invalid token")), w)).
Proof.
  intros Hb. unfold Firebase.authenticateToken, verify_id_token, verifies.
  run_handler. rewrite Hb. simpl. split.
  - by intros ->.
  - intros -> Hv. destruct token as [| |b|x|s]; simpl; try done.
    by destruct (verifyIdToken e s).
Qed.

Lemma authenticateToken_fields_rejects (req : request) (next : decoded_token -> M response)
    (e : env) (w : world) (token : value) :
  bearer_token (authorization req) = Ok token ->
  (falsy token = true ->
   FirebaseFields.authenticateToken req next e w
   = (Ok (status_json 401 (Firebase.error_json "No token provided")), w))
  /\ (falsy token = false -> verifies e token = false ->
      FirebaseFields.authenticateToken req next e w
      = (Ok (status_json 403 (Firebase.error_json "Invalid token")), w)).
Proof.
  intros Hb. unfold FirebaseFields.authenticateToken, verify_id_token, verifies.
  run_handler. rewrite Hb. simpl. split.
  - by intros ->.
  - intros -> Hv. destruct token as [| |b|x|s]; simpl; try done.
    by destruct (verifyIdToken e s).
Qed.

(** In both Firebase variants a protected route answers a request without a
    token with 401 and one with a rejected token with 403; no downstream call
    is made and nothing changes. *)
Theorem protected_routes_reject (ep : Firebase.endpoint) (req : request) (e : env) (w : world)
    (token : value) :
  ep ∈ protected ->
  bearer_token (authorization req) = Ok token ->
  (falsy token = true ->
   serve (Firebase.route ep req) e w
   = (Some (status_json 401 (Firebase.error_json "No token provided")), w))
  /\ (falsy token = false -> verifies e token = false ->
      serve (Firebase.route ep req) e w
      = (Some (status_json 403 (Firebase.error_json "Invalid token")), w)).
Proof.
  intros Hep Hb. unfold serve.
  assert (exists next, Firebase.route ep req = Firebase.authenticateToken req next) as [next ->].
  { unfold protected in Hep. repeat (apply elem_of_cons in Hep as [->|Hep]; [simpl; eauto|]).
    by apply elem_of_nil in Hep. }
  destruct (authenticateToken_rejects req next e w token Hb) as [H401 H403].
  split.
  - intros H. by rewrite H401.
  - intros H Hv. by rewrite H403.
Qed.

Theorem protected_fields_routes_reject (ep : FirebaseFields.endpoint) (req : request)
    (e : env) (w : world) (token : value) :
  ep ∈ protected_fields ->
  bearer_token (authorization req) = Ok token ->
  (falsy token = true ->
   serve (FirebaseFields.route ep req) e w
   = (Some (status_json 401 (Firebase.error_json "No token provided")), w))
  /\ (falsy token = false -> verifies e token = false ->
      serve (FirebaseFields.route ep req) e w
      = (Some (status_json 403 (Firebase.error_json "Invalid token")), w)).
Proof.
  intros Hep Hb. unfold serve.
  assert (exists next, FirebaseFields.route ep req
                       = FirebaseFields.authenticateToken req next) as [next ->].
  { unfold protected_fields in Hep.
    repeat (apply elem_of_cons in Hep as [->|Hep]; [simpl; eauto|]).
    by apply elem_of_nil in Hep. }
  destruct (authenticateToken_fields_rejects req next e w token Hb) as [H401 H403].
  split.
  - intros H. by rewrite H401.
  - intros H Hv. by rewrite H403.
Qed.

(** No route of the first server looks at the Authorization header. *)
Lemma legacy_routes_ignore_authorization (ep : Legacy.endpoint) (h : string)
    (req : request) (e : env) (w : world) :
  serve (Legacy.route ep (with_authorization h req)) e w = serve (Legacy.route ep req) e w.
Proof. by destruct ep. Qed.

(** C1. The first server mounts no middleware: a request without an
    Authorization header to its performance-data route is answered 200 with
    the rows of the spreadsheet, where the claim asks for a 401. *)
Lemma legacy_performance_data_needs_no_token :
  bearer_token (authorization bare_request) = Ok VUndef
  /\ (serve (Legacy.route Legacy.PerformanceData bare_request) (sample_env Healthy)
        (sample_world 0 [("Performance-Overview!B2:E3", overview_rows)])).1
     = Some (json (Arr
         [ Obj [("title", Str "This Week PNL"); ("value", Str "120"); ("change", Str "+2%")];
           Obj [("title", Str "Last Week PNL"); ("value", Str "-40"); ("change", Str "-1%")];
           Obj [("title", Str "Monthly PNL"); ("value", Str "900"); ("change", Str "+5%")];
           Obj [("title", Str "Yearly PNL"); ("value", Str "4100"); ("change", Str "+12%")] ])).
Proof. split; vm_compute; reflexivity. Qed.

(** ** The cache *)

Section CacheFacts.
Context {V : Type}.
Implicit Types (c : gmap string (NodeCache.entry V)) (d : NodeCache.entry V).

(** A miss leaves no entry under the key. *)
Lemma get_miss now key c c' :
  NodeCache.get now key c = (None, c') -> c' !! key = None.
Proof.
  unfold NodeCache.get. destruct (c !! key) as [d|] eqn:Hk.
  - destruct (NodeCache.check now d); [discriminate|].
    intros [= <-]. apply lookup_delete_eq.
  - by intros [= <-].
Qed.

Lemma get_absent now key c :
  c !! key = None -> NodeCache.get now key c = (None, c).
Proof. intros H. unfold NodeCache.get. by rewrite H. Qed.

(** Up to its time an entry is served, and the store stays as it is. *)
Lemma get_fresh now key c d :
  c !! key = Some d -> now <= NodeCache.t d ->
  NodeCache.get now key c = (Some (NodeCache.v d), c).
Proof.
  intros Hk Ht. unfold NodeCache.get, NodeCache.check. rewrite Hk.
  destruct (Z.ltb_spec (NodeCache.t d) now); [lia|]. by rewrite andb_false_r.
Qed.

(** Past its time it is deleted. *)
Lemma get_expired now key c d :
  c !! key = Some d -> NodeCache.t d <> 0 -> NodeCache.t d < now ->
  NodeCache.get now key c = (None, delete key c).
Proof.
  intros Hk H0 Ht. unfold NodeCache.get, NodeCache.check. rewrite Hk.
  destruct (Z.ltb_spec (NodeCache.t d) now); [|lia].
  destruct (Z.eqb_spec (NodeCache.t d) 0); [lia|]. done.
Qed.

Lemma lookup_set now key (x : V) ttl c :
  NodeCache.set now key x ttl c !! key
  = Some {| NodeCache.t := NodeCache.livetime now ttl; NodeCache.v := x |}.
Proof. apply lookup_insert_eq. Qed.
End CacheFacts.

(** A request that finds the entry answers with it and reads nothing. *)
Lemma performance_data_hit (req : request) (e : env) (w : world) (p : performance)
    (c' : gmap string (NodeCache.entry performance)) :
  NodeCache.get (now w) "performance-data" (cache w) = (Some p, c') ->
  Firebase.performance_data req e w
  = (Ok (json (Firebase.performance_json p)), set_cache c' w).
Proof.
  intros Hget. unfold Firebase.performance_data, cache_get. run_handler.
  by rewrite Hget.
Qed.

(** A request that finds the cache empty reads downstream, and then either
    answers 200 and leaves the entry written at that moment, or answers 500
    with the cache still empty. *)
Lemma performance_data_miss (req : request) (e : env) (w : world)
    (c' : gmap string (NodeCache.entry performance)) :
  NodeCache.get (now w) "performance-data" (cache w) = (None, c') ->
  exists r w',
    Firebase.performance_data req e w = (Ok r, w')
    /\ calls w' = calls w ++ [Get "Trade-History!H1:N1"]
    /\ ((reads e = Healthy /\ exists p,
           r = json (Firebase.performance_json p)
           /\ cache w' !! "performance-data"
              = Some {| NodeCache.t := now w' + 30000; NodeCache.v := p |})
        \/ (exists msg, r = status_json 500 (Obj [("error", Prim msg)]))
           /\ cache w' !! "performance-data" = None).
Proof.
  intros Hget. pose proof (get_miss _ _ _ _ Hget) as Habs.
  unfold Firebase.performance_data, cache_get, cache_set, values_get.
  run_handler. rewrite Hget. simpl.
  destruct (reads e) eqn:Hr; simpl.
  - destruct (grid w !! _) as [[|values vs]|]; simpl;
      try (rewrite (get_absent _ _ _ Habs); simpl; do 2 eexists;
           split; [done|split; [done|right; split; [eauto|done]]]).
    do 2 eexists. split; [done|]. split; [done|]. left. split; [done|].
    eexists. split; [done|]. simpl. by rewrite lookup_set.
  - rewrite (get_absent _ _ _ Habs). simpl. do 2 eexists.
    split; [done|split; [done|right; split; [eauto|done]]].
  - rewrite (get_absent _ _ _ Habs). simpl. do 2 eexists.
    split; [done|split; [done|right; split; [eauto|done]]].
Qed.

(** ** Handlers cut at their awaits *)

(** The middleware in front of a cut handler is the middleware. *)
Lemma authenticateToken_cut (req : request) (next : Firebase.user -> M response)
    (e : env) (w : world) :
  Firebase.authenticateToken req next e w
  = bind (Overlap.authenticated req)
      (fun outcome => match outcome with inl r => ret r | inr u => next u end) e w.
Proof. reflexivity. Qed.

Lemma set_now_now (w : world) : set_now (now w) w = w.
Proof. by destruct w. Qed.

(** Served alone, the cut performance handler is the handler. *)
Lemma performance_data_alone (req : request) (e : env) (t : Z) (w : world) :
  exists r w',
    Firebase.performance_data req e (set_now t w) = (Ok r, w')
    /\ Overlap.sent (Overlap.run Overlap.performance_data (Overlap.alone t e req)
                       (Overlap.idle w)).1 = [r]
    /\ (Overlap.run Overlap.performance_data (Overlap.alone t e req) (Overlap.idle w)).2
       = Overlap.idle w'.
Proof.
  unfold Overlap.alone, Overlap.run, Overlap.step, Overlap.performance_data,
    Firebase.performance_data, Overlap.idle, cache_get, values_get.
  run_handler.
  destruct (NodeCache.get t "performance-data" (cache w)) as [[p|] c'] eqn:Hget; simpl.
  { do 2 eexists. split; [reflexivity|]. by split. }
  unfold Overlap.send, Overlap.performance_data_settled, Overlap.performance_data_catch,
    Overlap.got, cache_get, cache_set.
  run_handler.
  destruct (reads e); simpl.
  - destruct (grid w !! _) as [[|values vs]|]; simpl.
    + destruct (NodeCache.get _ _ c') as [[p|] c2]; simpl;
        do 2 eexists; (split; [reflexivity|]); by split.
    + do 2 eexists. split; [reflexivity|]. by split.
    + destruct (NodeCache.get _ _ c') as [[p|] c2]; simpl;
        do 2 eexists; (split; [reflexivity|]); by split.
  - destruct (NodeCache.get _ _ c') as [[p|] c2]; simpl;
      do 2 eexists; (split; [reflexivity|]); by split.
  - destruct (NodeCache.get _ _ c') as [[p|] c2]; simpl;
      do 2 eexists; (split; [reflexivity|]); by split.
Qed.

(** ** The cache under overlap *)

(** A request that finds the entry answers with it and does not wait. *)
Lemma cut_performance_data_hit (req : request) (e : env) (w : world) (p : performance)
    (c' : gmap string (NodeCache.entry performance)) :
  NodeCache.get (now w) "performance-data" (cache w) = (Some p, c') ->
  Overlap.performance_data req e w
  = (Ok (Overlap.Answered (json (Firebase.performance_json p))), set_cache c' w).
Proof.
  intros Hget. unfold Overlap.performance_data, cache_get. run_handler.
  by rewrite Hget.
Qed.

(** A request that misses sends the read and waits. *)
Lemma cut_performance_data_miss (req : request) (e : env) (w : world)
    (c' : gmap string (NodeCache.entry performance)) :
  NodeCache.get (now w) "performance-data" (cache w) = (None, c') ->
  Overlap.performance_data req e w
  = (Ok Overlap.performance_data_waiting,
     log_call (Get "Trade-History!H1:N1") (set_cache c' w)).
Proof.
  intros Hget. unfold Overlap.performance_data, cache_get, Overlap.send. run_handler.
  by rewrite Hget.
Qed.

(** While the entry is fresh and nothing is in flight, every arriving
    request is answered with it at once; the cache, the call log and the
    waiting list stay as they are. *)
Lemma arrivals_fresh (l : list (Z * env * request)) (s : Overlap.state)
    (d : NodeCache.entry performance) :
  cache (Overlap.shared s) !! "performance-data" = Some d ->
  Forall (fun x => x.1.1 <= NodeCache.t d) l ->
  let out := Overlap.run Overlap.performance_data (Overlap.arrivals l) s in
  Forall (fun r => r = Some (json (Firebase.performance_json (NodeCache.v d)))) out.1
  /\ cache (Overlap.shared out.2) = cache (Overlap.shared s)
  /\ calls (Overlap.shared out.2) = calls (Overlap.shared s)
  /\ Overlap.in_flight out.2 = Overlap.in_flight s.
Proof.
  revert s. induction l as [|[[t e] req] l IH]; intros s Hk Hl; [done|].
  apply Forall_cons in Hl as [Ht Hl]. simpl in Ht.
  cbn [Overlap.arrivals fmap list_fmap Overlap.run Overlap.step fst snd].
  rewrite (cut_performance_data_hit req e (set_now t (Overlap.shared s))
             (NodeCache.v d) (cache (Overlap.shared s)))
    by (simpl; by apply get_fresh).
  match goal with |- context [Overlap.run _ _ ?s1] =>
    specialize (IH s1 Hk Hl); fold (Overlap.arrivals l);
    destruct (Overlap.run Overlap.performance_data (Overlap.arrivals l) s1) as [rs s2]
  end.
  simpl in *. destruct IH as (Hrs & Hc & Hcalls & Hfl).
  split; [by constructor|done].
Qed.

(** The read of a waiting request settles with a first row: the payload is
    cached at that moment and sent. *)
Lemma fetch_settles (s : Overlap.state) (i : nat) (e : env) (t : Z)
    (values : row) (rest : list row) :
  Overlap.in_flight s !! i = Some (e, Overlap.performance_data_waiting) ->
  reads e = Healthy ->
  grid (Overlap.shared s) !! "Trade-History!H1:N1" = Some (values :: rest) ->
  Overlap.step Overlap.performance_data (Overlap.Settles t i) s
  = (Some (json (Firebase.performance_json (Firebase.formattedResult values))),
     {| Overlap.shared :=
          set_cache (NodeCache.set t "performance-data" (Firebase.formattedResult values) 30
                       (cache (Overlap.shared s)))
                    (set_now t (Overlap.shared s));
        Overlap.in_flight := delete i (Overlap.in_flight s) |}).
Proof.
  intros Hi Hr Hg. cbn [Overlap.step]. rewrite Hi.
  unfold Overlap.settle, Overlap.performance_data_waiting, Overlap.performance_data_settled,
    Overlap.got, cache_set.
  run_handler. rewrite Hr. simpl. by rewrite Hg.
Qed.


(** C2, the claim as stated fails. Two requests miss the cache at 1000 and
    1010 ms. The read of the first settles at 1050 ms: the fetch succeeds
    and its payload is sent. The sheet is edited, and the read of the second
    settles at 1200 ms and overwrites the entry. A request at 2000 ms, within
    30 s of the fetch, is answered with another payload than the first
    response; a request at 31100 ms, more than 30 s after the fetch, is
    still answered from the cache: only the two reads were ever issued. *)
Lemma overlapping_miss_overwrites_the_entry :
  let w0 := sample_world 0 [("Trade-History!H1:N1", [perf_row])] in
  let e := sample_env Healthy in
  let first := json (Firebase.performance_json
                       {| thisWeek := "12.50"; lastWeek := "-3.25";
                          monthly := number_of_Z 41; yearly := number_of_Z 310 |}) in
  let other := json (Firebase.performance_json
                       {| thisWeek := "99.00"; lastWeek := "0.00";
                          monthly := number_of_Z 0; yearly := number_of_Z 0 |}) in
  let out :=
    Overlap.run Overlap.performance_data
      [ Overlap.Arrives 1000 e bare_request;
        Overlap.Arrives 1010 e bare_request;
        Overlap.Settles 1050 0;
        Overlap.Edited "Trade-History!H1:N1" [[cell "99"]];
        Overlap.Settles 1200 0;
        Overlap.Arrives 2000 e bare_request;
        Overlap.Arrives 31100 e bare_request ]
      (Overlap.idle w0) in
  out.1 = [None; None; Some first; None; Some other; Some other; Some other]
  /\ first <> other
  /\ calls (Overlap.shared out.2)
     = [Get "Trade-History!H1:N1"; Get "Trade-History!H1:N1"]
  /\ Overlap.in_flight out.2 = [].
Proof.
  repeat split; try (vm_compute; reflexivity). vm_compute. discriminate.
Qed.

(** C2, amended. Let the read of a waiting performance-data request settle
    at [t0] with a first row while no other request is in flight: the fetch
    succeeds and [r0] is sent. Then the requests that arrive after it and no
    later than [t0 + 30000] ms are all answered with [r0] and issue no
    downstream call, whatever the spreadsheet would have said; and a request
    arriving later than that reads the spreadsheet again. *)
Theorem performance_cache_window
    (s0 : Overlap.state) (e0 : env) (t0 : Z) (values : row) (rest : list row)
    (l : list (Z * env * request)) (t' : Z) (e' : env) (req' : request) :
  Overlap.in_flight s0 = [(e0, Overlap.performance_data_waiting)] ->
  reads e0 = Healthy ->
  grid (Overlap.shared s0) !! "Trade-History!H1:N1" = Some (values :: rest) ->
  0 <= t0 ->
  Forall (fun x => x.1.1 <= t0 + 30000) l ->
  t0 + 30000 < t' ->
  let r0 := json (Firebase.performance_json (Firebase.formattedResult values)) in
  let s1 := (Overlap.step Overlap.performance_data (Overlap.Settles t0 0) s0).2 in
  let served := Overlap.run Overlap.performance_data (Overlap.arrivals l) s1 in
  (Overlap.step Overlap.performance_data (Overlap.Settles t0 0) s0).1 = Some r0
  /\ Forall (fun r => r = Some r0) served.1
  /\ calls (Overlap.shared served.2) = calls (Overlap.shared s1)
  /\ calls (Overlap.shared
              (Overlap.step Overlap.performance_data (Overlap.Arrives t' e' req')
                 served.2).2)
     = calls (Overlap.shared s1) ++ [Get "Trade-History!H1:N1"].
Proof.
  intros Hfl Hr Hg Ht0 Hl Ht' r0 s1 served.
  assert (Overlap.in_flight s0 !! 0%nat = Some (e0, Overlap.performance_data_waiting))
    as Hi by (by rewrite Hfl).
  pose proof (fetch_settles s0 0 e0 t0 values rest Hi Hr Hg) as Hstep.
  subst served s1. rewrite Hstep. cbn [fst snd].
  split; [done|].
  set (s1 := {| Overlap.shared := _; Overlap.in_flight := _ |}).
  assert (cache (Overlap.shared s1) !! "performance-data"
          = Some {| NodeCache.t := t0 + 30000; NodeCache.v := Firebase.formattedResult values |})
    as Hentry by (simpl; by rewrite lookup_set).
  pose proof (arrivals_fresh l s1 _ Hentry Hl) as Hfresh.
  destruct (Overlap.run Overlap.performance_data (Overlap.arrivals l) s1) as [rs s2].
  cbn [fst snd] in *. destruct Hfresh as (Hrs & Hc & Hcs & Hfl2).
  split; [done|]. split; [done|].
  cbn [Overlap.step].
  rewrite (cut_performance_data_miss req' e' (set_now t' (Overlap.shared s2))
             (delete "performance-data" (cache (Overlap.shared s2)))).
  - simpl. by rewrite Hcs.
  - simpl. rewrite Hc. eapply get_expired; [exact Hentry|simpl; lia|simpl; lia].
Qed.

(** Two requests miss at 1000 and 1010 ms; the second is rejected at
    1020 ms and answered 500, the read of the first settles at 1050 ms. A
    request at 2000 ms while the API is broken and one at 31050 ms are
    served from the cache, one at 31051 ms reads again. *)
Lemma performance_cache_window_witness :
  let e0 := sample_env Healthy in
  let outage :=
    sample_env (Rejects {| name := "Error"; message := "socket hang up"; code := None |}) in
  let w0 := sample_world 0 [("Trade-History!H1:N1", [perf_row])] in
  let s0 := (Overlap.run Overlap.performance_data
               [ Overlap.Arrives 1000 e0 bare_request;
                 Overlap.Arrives 1010 outage bare_request;
                 Overlap.Settles 1020 1 ] (Overlap.idle w0)).2 in
  let l := [(2000, sample_env Bodyless, bare_request); (31050, e0, bare_request)] in
  let r0 := json (Firebase.performance_json (Firebase.formattedResult perf_row)) in
  let s1 := (Overlap.step Overlap.performance_data (Overlap.Settles 1050 0) s0).2 in
  let served := Overlap.run Overlap.performance_data (Overlap.arrivals l) s1 in
  (Overlap.step Overlap.performance_data (Overlap.Settles 1050 0) s0).1 = Some r0
  /\ Forall (fun r => r = Some r0) served.1
  /\ calls (Overlap.shared served.2) = calls (Overlap.shared s1)
  /\ calls (Overlap.shared
              (Overlap.step Overlap.performance_data (Overlap.Arrives 31051 e0 bare_request)
                 served.2).2)
     = calls (Overlap.shared s1) ++ [Get "Trade-History!H1:N1"].
Proof.
  intros e0 outage w0 s0 l r0.
  apply (performance_cache_window s0 e0 1050 perf_row [] l 31051 e0 bare_request).
  - reflexivity.
  - reflexivity.
  - vm_compute. reflexivity.
  - vm_compute. discriminate.
  - repeat constructor; vm_compute; discriminate.
  - vm_compute. reflexivity.
Defined.



(** ** The balance sheet *)

Lemma writes_snoc_get (l : list call) (range : string) :
  writes (l ++ [Get range]) = writes l.
Proof. unfold writes. rewrite List.filter_app. simpl. apply app_nil_r. Qed.


(** With a row for the e-mail already there, an upsert reads and does not
    write. *)
Lemma updateUserBalanceSheet_present (u : Firebase.userData) (e : env) (w : world) :
  existsb (Firebase.has_email (Firebase.email u)) (balance w) = true ->
  let w' := (Firebase.updateUserBalanceSheet u e w).2 in
  grid w' = grid w /\ writes (calls w') = writes (calls w).
Proof.
  intros Hex. apply existsb_findIndex in Hex as [i Hi].
  unfold Firebase.updateUserBalanceSheet, values_get, values_append, balance in *.
  run_handler.
  destruct (reads e); simpl; rewrite ?writes_snoc_get; auto.
  rewrite Hi. simpl. by rewrite writes_snoc_get.
Qed.

(** The middleware either answers itself, the world untouched, or hands
    over to the route's handler in the same world. *)
Lemma authenticateToken_world (req : request) (next : Firebase.user -> M response)
    (e : env) (w : world) :
  (Firebase.authenticateToken req next e w).2 = w
  \/ exists u, Firebase.authenticateToken req next e w = next u e w.
Proof.
  unfold Firebase.authenticateToken, verify_id_token, bearer_token, split.
  run_handler.
  destruct (authorization req) as [h|]; simpl; auto.
  destruct h as [|c h]; simpl; auto.
  destruct (falsy _); simpl; auto.
  destruct (index _ 1); simpl; auto.
  destruct (verifyIdToken e s) as [d|]; simpl; auto.
  destruct (truthy (token_name d)); simpl; eauto.
  destruct (token_email d); simpl; eauto.
Qed.










(** The middleware answers itself or hands over, the world untouched. *)
Lemma authenticated_world (req : request) (e : env) (w : world) :
  exists o, Overlap.authenticated req e w = (Ok o, w).
Proof.
  unfold Overlap.authenticated, verify_id_token, bearer_token, split.
  run_handler.
  destruct (authorization req) as [h|]; simpl; eauto.
  destruct h as [|c h]; simpl; eauto.
  destruct (falsy _); simpl; eauto.
  destruct (index _ 1); simpl; eauto.
  destruct (verifyIdToken e s) as [d|]; simpl; eauto.
  destruct (truthy (token_name d)); simpl; eauto.
  destruct (token_email d); simpl; eauto.
Qed.

(** Served alone, the cut upsert routes are the routes. *)
Lemma perform_alone (c : upsert_call) (e : env) (t : Z) (w : world) :
  exists r w',
    perform c e (set_now t w) = (Ok r, w')
    /\ Overlap.sent (Overlap.run Overlap.perform (Overlap.alone t e c) (Overlap.idle w)).1
       = [r]
    /\ (Overlap.run Overlap.perform (Overlap.alone t e c) (Overlap.idle w)).2
       = Overlap.idle w'.
Proof.
  destruct c as [req|req]; unfold perform, Overlap.perform, Firebase.route.
  - unfold Overlap.alone, Overlap.run, Overlap.step, Overlap.login_google,
      Firebase.login_google, Overlap.idle, Overlap.login_google_catch,
      Overlap.updateUserBalanceSheet, Firebase.updateUserBalanceSheet,
      verify_id_token, values_get, values_append, Overlap.send.
    run_handler.
    destruct (falsy (body_idToken req)); simpl.
    { do 2 eexists. split; [reflexivity|]. by split. }
    destruct (body_idToken req) as [| |b|x|s]; simpl;
      try (do 2 eexists; split; [reflexivity|]; by split).
    destruct (verifyIdToken e s) as [d|err]; simpl;
      [|do 2 eexists; split; [reflexivity|]; by split].
    unfold Overlap.balance_read, Overlap.got, Overlap.login_google_updated,
      Overlap.login_google_catch, Firebase.create_custom_token, Overlap.send.
    run_handler.
    destruct (reads e); simpl;
      try (do 2 eexists; split; [reflexivity|]; by split).
    destruct (findIndex _ _); simpl.
    { destruct (createCustomToken e _); simpl;
        do 2 eexists; (split; [reflexivity|]); by split. }
    unfold Overlap.appended, Overlap.balance_appended, Overlap.login_google_updated,
      Overlap.login_google_catch, Firebase.create_custom_token.
    run_handler.
    destruct (appends e); simpl.
    { do 2 eexists. split; [reflexivity|]. by split. }
    destruct (createCustomToken e _); simpl;
      do 2 eexists; (split; [reflexivity|]); by split.
  - rewrite authenticateToken_cut.
    unfold Overlap.alone, Overlap.run, Overlap.step, Overlap.authenticateToken, bind.
    simpl.
    destruct (authenticated_world req e (set_now t w)) as [o ->]. simpl.
    destruct o as [r|u]; simpl.
    { do 2 eexists. split; [reflexivity|]. by split. }
    unfold Overlap.signup, Firebase.signup, Overlap.updateUserBalanceSheet,
      Firebase.updateUserBalanceSheet, values_get, values_append, Overlap.send.
    run_handler.
    destruct (strict_eq _ _); simpl;
      [|do 2 eexists; split; [reflexivity|]; by split].
    unfold Overlap.balance_read, Overlap.got, Overlap.signup_updated,
      Overlap.signup_catch, Overlap.send.
    run_handler.
    destruct (reads e); simpl;
      try (do 2 eexists; split; [reflexivity|]; by split).
    destruct (findIndex _ _); simpl.
    { do 2 eexists. split; [reflexivity|]. by split. }
    unfold Overlap.appended, Overlap.balance_appended, Overlap.signup_updated,
      Overlap.signup_catch.
    run_handler.
    destruct (appends e); simpl;
      do 2 eexists; (split; [reflexivity|]); by split.
Qed.

(** [perform_all] is the machine on the schedule without overlap. *)
Lemma perform_all_in_turn (l : list (upsert_call * env)) (w : world) :
  Overlap.in_turn l (Overlap.idle w) = Overlap.idle (perform_all l w).
Proof.
  revert w. induction l as [|[c e] l IH]; intros w; [done|].
  cbn [Overlap.in_turn perform_all].
  destruct (perform_alone c e (now w) w) as (r & w' & Hrun & _ & Hs).
  change (Overlap.shared (Overlap.idle w)) with w. rewrite Hs.
  rewrite set_now_now in Hrun. unfold serve. rewrite Hrun. apply IH.
Qed.



(** ** The balance sheet under overlap *)




Lemma perform_present (c : upsert_call) (e : env) (w : world) (em : value) :
  submitted_email c e = Some em ->
  existsb (Firebase.has_email em) (balance w) = true ->
  let w' := (serve (perform c) e w).2 in
  grid w' = grid w /\ writes (calls w') = writes (calls w).
Proof.
  intros Hsub Hex.
  destruct c as [req|req]; unfold perform, serve, submitted_email in *; simpl in *.
  - unfold Firebase.login_google, verify_id_token, Firebase.create_custom_token.
    run_handler.
    destruct (falsy (body_idToken req)); simpl; auto.
    destruct (body_idToken req) as [| |b|x|s]; simpl; try discriminate.
    destruct (verifyIdToken e s) as [d|err] eqn:Hv; simpl; try discriminate.
    injection Hsub as <-.
    match goal with |- context [Firebase.updateUserBalanceSheet ?u e w] =>
      pose proof (updateUserBalanceSheet_present u e w Hex) as Hu;
      destruct (Firebase.updateUserBalanceSheet u e w) as [[[]|err] w1]
    end; simpl in *; [destruct (createCustomToken e _)|]; done.
  - injection Hsub as <-.
    destruct (authenticateToken_world req (Firebase.signup req) e w) as [Hw|[u Hu]].
    + destruct (Firebase.authenticateToken _ _ e w) as [[r|err] w1]; simpl in *; by subst.
    + rewrite Hu. unfold Firebase.signup. run_handler.
      destruct (strict_eq _ _); simpl; auto.
      match goal with |- context [Firebase.updateUserBalanceSheet ?u e w] =>
        pose proof (updateUserBalanceSheet_present u e w Hex) as Hg;
        destruct (Firebase.updateUserBalanceSheet u e w) as [[[]|err] w1]
      end; done.
Qed.

(** C8. When a balance row already carries the e-mail a Google login or a
    signup submits, the call writes nothing: every range of the spreadsheet
    is as it was, and no append was issued downstream. *)
Theorem upsert_present_writes_nothing (c : upsert_call) (e : env) (w : world) (em : value) :
  submitted_email c e = Some em ->
  existsb (Firebase.has_email em) (balance w) = true ->
  grid (serve (perform c) e w).2 = grid w
  /\ writes (calls (serve (perform c) e w).2) = writes (calls w).
Proof. apply perform_present. Qed.

(** Ann signs up while her row, with a balance, is in the sheet. *)
Lemma upsert_present_writes_nothing_witness :
  let w := sample_world 0 [(Firebase.balance_range, [ann_row])] in
  grid (serve (perform ann_signup) (sample_env Healthy) w).2 = grid w
  /\ writes (calls (serve (perform ann_signup) (sample_env Healthy) w).2) = writes (calls w).
Proof.
  intros w.
  apply (upsert_present_writes_nothing ann_signup (sample_env Healthy) w
           (VStr "ann@example.com")).
  - reflexivity.
  - vm_compute. reflexivity.
Defined.






(** ** Trade history *)

Lemma optional_text (c : value) (d : string) :
  d <> EmptyString ->
  rbind (opt_toString c) (fun s => Ok (or_else s (VStr d))) = Ok (text_or c d).
Proof.
  intros Hd. unfold text_or, or_else.
  destruct (missing c) eqn:Hm.
  - destruct c as [| |b|x|s]; simpl in *; try done. by destruct s.
  - pose proof (truthy_text _ (ToString_nonempty c Hm)) as Ht.
    destruct c as [| |b|x|s]; simpl in *; try done; by rewrite Ht.
Qed.

(** The [.map] callback returns on every row. *)
Lemma shape_trade_total (r : row) : Firebase.shape_trade r = Ok (trade_of r).
Proof.
  unfold Firebase.shape_trade, trade_of.
  pose proof (optional_text (index r 1) "GOLD" ltac:(done)) as H1.
  pose proof (optional_text (index r 2) "BUY" ltac:(done)) as H2.
  destruct (opt_toString (index r 1)) as [s|]; simpl in *; [|done].
  destruct (opt_toString (index r 2)) as [d|]; simpl in *; [|done].
  injection H1 as ->. injection H2 as ->.
  do 2 f_equal. unfold amount_or_zero. by rewrite <- parseFloat_or_zero.
Qed.

Lemma is_complete_trade_of (r : row) :
  Firebase.is_complete (trade_of r) = truthy (index r 0).
Proof.
  unfold Firebase.is_complete, trade_of. simpl.
  rewrite !truthy_text_or by done. by rewrite !andb_true_r.
Qed.

Lemma process_trades_spec (vs : list row) :
  Firebase.process_trades vs = Ok (rev (trade_of <$> List.filter kept vs)).
Proof.
  unfold Firebase.process_trades.
  rewrite (rmap_total _ _ _ shape_trade_total). cbn [rbind].
  rewrite filter_fmap, filter_filter. do 3 f_equal.
  apply List.filter_ext. intros r. by rewrite is_complete_trade_of.
Qed.

Lemma trade_history_answer (req : request) (e : env) (w : world) :
  reads e = Healthy ->
  (serve (Firebase.trade_history req) e w).1
  = Some (json (Arr (Firebase.trade_json <$>
       rev (trade_of <$> List.filter kept (default [] (grid w !! "Trade-History!B2:E")))))).
Proof.
  intros Hr. unfold serve, Firebase.trade_history, values_get.
  run_handler. rewrite Hr. simpl.
  destruct (grid w !! _) as [vs|]; simpl; [|done].
  by rewrite process_trades_spec.
Qed.

(** C5, the claim as stated fails: a row with all four cells whose
    timestamp cell is empty is dropped as well, so the answer is not the
    reversed list of the rows with four cells. *)
Lemma trade_history_drops_a_full_row :
  let full := [VStr EmptyString; VStr "GOLD"; VStr "BUY"; cell "5"] in
  let good := [VStr "2024-01-05"; VStr "XAU"; VStr "SELL"; cell "-2"] in
  List.filter Firebase.has_all_fields [full; good] = [full; good]
  /\ Firebase.process_trades [full; good] = Ok [trade_of good]
  /\ Firebase.process_trades [full; good]
     <> Ok (rev (trade_of <$> List.filter Firebase.has_all_fields [full; good])).
Proof. repeat split; vm_compute; [reflexivity..|discriminate]. Qed.

(** C5, amended. With the downstream read answering, the trade-history
    endpoint drops every row with fewer than 4 cells and every row whose
    timestamp cell is falsy, shapes the rows that remain and returns them in
    reversed order. *)
Theorem trade_history_newest_first (req : request) (e : env) (w : world) :
  reads e = Healthy ->
  (serve (Firebase.trade_history req) e w).1
  = Some (json (Arr (Firebase.trade_json <$>
       rev (trade_of <$> List.filter kept (default [] (grid w !! "Trade-History!B2:E")))))).
Proof. apply trade_history_answer. Qed.

(** Three rows: a short one, one without a timestamp, and two trades. *)
Lemma trade_history_newest_first_witness :
  (serve (Firebase.trade_history bare_request) (sample_env Healthy)
     (sample_world 0 [("Trade-History!B2:E",
        [ [VStr "2024-01-04"; VStr "XAU"; VStr "BUY"; cell "3.5"];
          [VStr "2024-01-05"; VStr "XAU"];
          [VStr EmptyString; VStr "GOLD"; VStr "BUY"; cell "5"];
          [VStr "2024-01-06"; VStr EmptyString; VStr "SELL"; VStr "n/a"] ])])).1
  = Some (json (Arr
      [ Obj [("timestamp", Str "2024-01-06"); ("symbol", Str "GOLD");
             ("direction", Str "SELL"); ("pnl", Num zero)];
        Obj [("timestamp", Str "2024-01-04"); ("symbol", Str "XAU");
             ("direction", Str "BUY"); ("pnl", Prim (cell "3.5"))] ])).
Proof.
  rewrite (trade_history_newest_first bare_request (sample_env Healthy)) by reflexivity.
  vm_compute. reflexivity.
Defined.

Lemma amount_or_zero_not_NaN (c : value) : isNaN (amount_or_zero c) = false.
Proof.
  unfold amount_or_zero. destruct (isNaN (amount c)) eqn:H; [done|exact H].
Qed.

Lemma amount_or_zero_default (c : value) :
  falsy c = true \/ isNaN (parseFloat c) = true -> amount_or_zero c = zero.
Proof.
  unfold amount_or_zero, amount. intros [H|H].
  - by rewrite H.
  - destruct (falsy c); [done|]. by rewrite H.
Qed.

Lemma wallet_result_amounts (userEmail : value) (found : option row) :
  Firebase.wallet_result userEmail found
  = Firebase.wallet_json userEmail (amount (opt_index found 6)) (amount (opt_index found 5)).
Proof. unfold Firebase.wallet_result. by rewrite !parseFloat_or_zero. Qed.

(** C9, the claim as stated fails: a pnl cell that is not a number does not
    always give 0. [parseFloat] reads the longest numeric prefix, so the
    text "12abc" gives 12, "5%" gives 5 and "1,250.75" gives 1. *)
Lemma text_cell_keeps_its_numeric_prefix :
  let r := [VStr "2024-01-05"; VStr "XAU"; VStr "SELL"; VStr "12abc"] in
  Firebase.shape_trade r
  = Ok {| Firebase.timestamp := VStr "2024-01-05"; Firebase.symbol := VStr "XAU";
          Firebase.direction := VStr "SELL"; Firebase.pnl := number_of_Z 12 |}
  /\ number_of_Z 12 <> zero
  /\ (serve (Firebase.trade_history bare_request) (sample_env Healthy)
        (sample_world 0 [("Trade-History!B2:E", [r])])).1
     = Some (json (Arr [Obj [("timestamp", Str "2024-01-05"); ("symbol", Str "XAU");
                             ("direction", Str "SELL"); ("pnl", Num (number_of_Z 12))]]))
  /\ parseFloat (VStr "5%") = number_of_Z 5
  /\ parseFloat (VStr "1,250.75") = number_of_Z 1.
Proof.
  repeat split; try (vm_compute; reflexivity). vm_compute. discriminate.
Qed.

(** C9, amended. Shaping never throws. The [.map] callback of trade-history
    returns a trade for every row, so the pipeline returns a list for every
    list of rows. The trade's pnl is never NaN: it is 0 when the cell is
    falsy or has no numeric prefix (as every string that starts with no
    numeric character), and the number [parseFloat] reads from the cell
    otherwise. A missing symbol or direction cell gives "GOLD" or "BUY". The
    wallet's balance and earnings are 0 when their cell is falsy. With the
    downstream read answering, both endpoints answer 200 with the shaped
    rows: only a failed read reaches their [catch]. *)
Theorem shaping_never_throws :
  (forall r, Firebase.shape_trade r = Ok (trade_of r))
  /\ (forall vs, exists ts, Firebase.process_trades vs = Ok ts)
  /\ (forall r, isNaN (Firebase.pnl (trade_of r)) = false)
  /\ (forall r, falsy (index r 3) = true \/ isNaN (parseFloat (index r 3)) = true ->
                Firebase.pnl (trade_of r) = zero)
  /\ (forall r, falsy (index r 3) = false -> isNaN (parseFloat (index r 3)) = false ->
                Firebase.pnl (trade_of r) = parseFloat (index r 3))
  /\ (forall c s, starts_numeric c = false -> isNaN (parseFloat (VStr (String c s))) = true)
  /\ (forall r, missing (index r 1) = true -> Firebase.symbol (trade_of r) = VStr "GOLD")
  /\ (forall r, missing (index r 2) = true -> Firebase.direction (trade_of r) = VStr "BUY")
  /\ (forall userEmail found,
        Firebase.wallet_result userEmail found
        = Firebase.wallet_json userEmail (amount (opt_index found 6))
                                         (amount (opt_index found 5)))
  /\ (forall c, falsy c = true -> amount c = zero)
  /\ (forall req e w, reads e = Healthy ->
        (serve (Firebase.trade_history req) e w).1
        = Some (json (Arr (Firebase.trade_json <$>
             rev (trade_of <$> List.filter kept
                    (default [] (grid w !! "Trade-History!B2:E")))))))
  /\ (forall req u e w, reads e = Healthy ->
        (serve (Firebase.wallet_data req u) e w).1
        = Some (json match grid w !! Firebase.balance_range with
                     | None => Firebase.wallet_json (Firebase.user_email u) zero zero
                     | Some vs =>
                         let found := find (Firebase.has_email (Firebase.user_email u)) vs in
                         Firebase.wallet_json (Firebase.user_email u)
                           (amount (opt_index found 6)) (amount (opt_index found 5))
                     end)).
Proof.
  repeat split.
  - apply shape_trade_total.
  - intros vs. rewrite process_trades_spec. eauto.
  - intros r. apply amount_or_zero_not_NaN.
  - intros r. apply amount_or_zero_default.
  - intros r Hf Hn. unfold trade_of, amount_or_zero, amount. simpl.
    by rewrite Hf, Hn.
  - intros c s H. by rewrite not_a_number.
  - intros r H. unfold trade_of, text_or. simpl. by rewrite H.
  - intros r H. unfold trade_of, text_or. simpl. by rewrite H.
  - apply wallet_result_amounts.
  - intros c H. unfold amount. by rewrite H.
  - intros req e w Hr. by apply trade_history_answer.
  - intros req u e w Hr. unfold serve, Firebase.wallet_data, values_get.
    run_handler. rewrite Hr. simpl.
    destruct (grid w !! _); simpl; [|done]. by rewrite wallet_result_amounts.
Qed.

(** ** PNL data *)





(* ===================================================================== *)
(** * Further properties *)
(* ===================================================================== *)

Import Cover.

(** ** The Authorization header *)

Lemma split_string_whole (c : ascii) (s : string) :
  lacks c s = true -> split_string c s = [s].
Proof.
  induction s as [|a s IH]; simpl; [done|].
  intros H. apply andb_prop in H as [Ha Hs].
  apply negb_true_iff in Ha. rewrite Ha. by rewrite (IH Hs).
Qed.

Lemma split_string_first (c : ascii) (a b : string) :
  lacks c a = true -> split_string c (a +:+ String c b) = a :: split_string c b.
Proof.
  induction a as [|x a IH]; simpl.
  - intros _. by rewrite Ascii.eqb_refl.
  - intros H. apply andb_prop in H as [Hx Ha].
    apply negb_true_iff in Hx. rewrite Hx. by rewrite (IH Ha).
Qed.

Lemma truthy_append_char (a : string) (c : ascii) (b : string) :
  truthy (VStr (a +:+ String c b)) = true.
Proof. by destruct a. Qed.

Lemma bearer_token_field (scheme tok : string) :
  lacks " " scheme = true -> lacks " " tok = true ->
  bearer_token (Some (scheme +:+ String " " tok)) = Ok (VStr tok).
Proof.
  intros Hs Ht. unfold bearer_token. rewrite truthy_append_char.
  unfold split. simpl. by rewrite split_string_first, split_string_whole.
Qed.

Lemma bearer_token_no_space (h : string) :
  lacks " " h = true -> exists v, bearer_token (Some h) = Ok v /\ falsy v = true.
Proof.
  intros H. unfold bearer_token. destruct (truthy (VStr h)) eqn:Ht.
  - unfold split. simpl. rewrite split_string_whole by done. by exists VUndef.
  - exists (VStr h). unfold falsy. by rewrite Ht.
Qed.

(** With a token the identity provider accepts, the middleware of the
    first Firebase variant hands over to the route when the token has a name
    or a string for its e-mail. *)
Lemma authenticateToken_passes (req : request) (next : Firebase.user -> M response)
    (e : env) (w : world) (s : string) (d : decoded_token) :
  bearer_token (authorization req) = Ok (VStr s) ->
  falsy (VStr s) = false ->
  verifyIdToken e s = Ok d ->
  truthy (token_name d) = true \/ is_string (token_email d) = true ->
  exists dn,
    Firebase.authenticateToken req next e w
    = next {| Firebase.user_email := token_email d;
              Firebase.user_displayName := dn;
              Firebase.user_uid := token_uid d |} e w.
Proof.
  intros Hb Hf Hv Hd. unfold Firebase.authenticateToken, verify_id_token.
  run_handler. rewrite Hb. simpl. rewrite Hf. simpl. rewrite Hv. simpl.
  destruct (truthy (token_name d)) eqn:Hn; simpl; [eauto|].
  destruct Hd as [?|Hd]; [done|].
  destruct (token_email d); try discriminate. simpl. eauto.
Qed.

(** The middleware answers 401 or 403 itself, the world untouched, or
    hands over to the route in the same world. *)
Lemma authenticateToken_cases (req : request) (next : Firebase.user -> M response)
    (e : env) (w : world) :
  (exists r, Firebase.authenticateToken req next e w = (Ok r, w)
             /\ (status r = 401 \/ status r = 403))
  \/ exists u, Firebase.authenticateToken req next e w = next u e w.
Proof.
  unfold Firebase.authenticateToken, verify_id_token, bearer_token, split.
  run_handler.
  destruct (authorization req) as [h|]; simpl; [|left; eauto].
  destruct h as [|c h]; simpl; [left; eauto|].
  destruct (falsy _); simpl; [left; eauto|].
  destruct (index _ 1); simpl; try (left; by eauto).
  destruct (verifyIdToken e s) as [d|]; simpl; [|left; eauto].
  destruct (truthy (token_name d)); simpl; [right; eauto|].
  destruct (token_email d); simpl; try (left; by eauto). right; eauto.
Qed.

Lemma authenticateToken_fields_cases (req : request) (next : decoded_token -> M response)
    (e : env) (w : world) :
  (exists r, FirebaseFields.authenticateToken req next e w = (Ok r, w)
             /\ (status r = 401 \/ status r = 403))
  \/ exists u, FirebaseFields.authenticateToken req next e w = next u e w.
Proof.
  unfold FirebaseFields.authenticateToken, verify_id_token, bearer_token, split.
  run_handler.
  destruct (authorization req) as [h|]; simpl; [|left; eauto].
  destruct h as [|c h]; simpl; [left; eauto|].
  destruct (falsy _); simpl; [left; eauto|].
  destruct (index _ 1); simpl; try (left; by eauto).
  destruct (verifyIdToken e s) as [d|]; simpl; [right; eauto|left; eauto].
Qed.


(** X1. The word before the token is not looked at: whatever precedes the
    first space of the Authorization header, the text after it is what the
    identity provider is asked about, and a token it accepts opens the
    route. *)
Theorem authorization_scheme_is_not_checked
    (scheme tok : string) (req : request) (e : env) (w : world) (d : decoded_token) :
  lacks " " scheme = true ->
  lacks " " tok = true ->
  tok <> EmptyString ->
  authorization req = Some (scheme +:+ String " " tok) ->
  verifyIdToken e tok = Ok d ->
  truthy (token_name d) = true ->
  bearer_token (authorization req) = Ok (VStr tok)
  /\ serve (Firebase.route Firebase.VerifyToken req) e w
     = (Some (json (Obj [("success", Bool true);
                         ("user", Firebase.user_json
                            {| Firebase.user_email := token_email d;
                               Firebase.user_displayName := token_name d;
                               Firebase.user_uid := token_uid d |})])), w).
Proof.
  intros Hs Ht Hne Hh Hv Hn.
  assert (bearer_token (authorization req) = Ok (VStr tok)) as Hb.
  { rewrite Hh. by apply bearer_token_field. }
  split; [done|].
  assert (falsy (VStr tok) = false) as Hf by by destruct tok.
  unfold serve. simpl.
  unfold Firebase.authenticateToken, verify_id_token. run_handler.
  rewrite Hb. simpl. rewrite Hf. simpl. rewrite Hv. simpl. by rewrite Hn.
Qed.

Lemma authorization_scheme_is_not_checked_witness :
  let req := with_authorization "Basic good" bare_request in
  bearer_token (authorization req) = Ok (VStr "good")
  /\ serve (Firebase.route Firebase.VerifyToken req) (sample_env Healthy) (sample_world 0 [])
     = (Some (json (Obj [("success", Bool true);
                         ("user", Firebase.user_json
                            {| Firebase.user_email := token_email ann;
                               Firebase.user_displayName := token_name ann;
                               Firebase.user_uid := token_uid ann |})])),
        sample_world 0 []).
Proof.
  intros req.
  apply (authorization_scheme_is_not_checked "Basic" "good" req (sample_env Healthy)
           (sample_world 0 []) ann); try reflexivity.
  discriminate.
Defined.

(** X2. A header without a space, such as a token sent without the word
    Bearer, is answered 401 by every protected route of both Firebase
    variants: the token is not verified and nothing changes. *)
Theorem header_without_space_is_401 (h : string) (req : request) (e : env) (w : world) :
  lacks " " h = true ->
  authorization req = Some h ->
  (forall ep, ep ∈ protected ->
     serve (Firebase.route ep req) e w
     = (Some (status_json 401 (Firebase.error_json "No token provided")), w))
  /\ (forall ep, ep ∈ protected_fields ->
        serve (FirebaseFields.route ep req) e w
        = (Some (status_json 401 (Firebase.error_json "No token provided")), w)).
Proof.
  intros Hl Hh. destruct (bearer_token_no_space h Hl) as (v & Hb & Hf).
  rewrite <- Hh in Hb. split; intros ep Hep.
  - by apply (protected_routes_reject ep req e w v Hep Hb).
  - by apply (protected_fields_routes_reject ep req e w v Hep Hb).
Qed.

Lemma header_without_space_is_401_witness :
  serve (Firebase.route Firebase.WalletData (with_authorization "good" bare_request))
    (sample_env Healthy) (sample_world 0 [(Firebase.balance_range, [ann_row])])
  = (Some (status_json 401 (Firebase.error_json "No token provided")),
     sample_world 0 [(Firebase.balance_range, [ann_row])]).
Proof.
  apply (header_without_space_is_401 "good" (with_authorization "good" bare_request)
           (sample_env Healthy) (sample_world 0 [(Firebase.balance_range, [ann_row])]));
    [reflexivity|reflexivity|].
  unfold protected. repeat constructor.
Defined.

(** X3. A token the identity provider accepts but that carries neither a
    name nor a string for the e-mail is answered 403 by the middleware of the
    first Firebase variant (building the display name throws), while the
    middleware of the other variant lets the same request through. *)
Theorem verified_token_without_name_or_email
    (req : request) (e : env) (w : world) (s : string) (d : decoded_token)
    (next : Firebase.user -> M response) (next' : decoded_token -> M response) :
  bearer_token (authorization req) = Ok (VStr s) ->
  falsy (VStr s) = false ->
  verifyIdToken e s = Ok d ->
  truthy (token_name d) = false ->
  is_string (token_email d) = false ->
  Firebase.authenticateToken req next e w
  = (Ok (status_json 403 (Firebase.error_json "Invalid token")), w)
  /\ FirebaseFields.authenticateToken req next' e w = next' d e w.
Proof.
  intros Hb Hf Hv Hn He. split.
  - unfold Firebase.authenticateToken, verify_id_token. run_handler.
    rewrite Hb. simpl. rewrite Hf. simpl. rewrite Hv. simpl. rewrite Hn. simpl.
    by destruct (token_email d).
  - unfold FirebaseFields.authenticateToken, verify_id_token. run_handler.
    rewrite Hb. simpl. rewrite Hf. simpl. by rewrite Hv.
Qed.

Lemma verified_token_without_name_or_email_witness :
  let req := with_authorization "Bearer anon" bare_request in
  let e := wide_env Healthy "production" in
  Firebase.authenticateToken req (Firebase.verify_token req) e (sample_world 0 [])
  = (Ok (status_json 403 (Firebase.error_json "Invalid token")), sample_world 0 [])
  /\ FirebaseFields.authenticateToken req (FirebaseFields.verify_token req) e (sample_world 0 [])
     = FirebaseFields.verify_token req anonymous e (sample_world 0 []).
Proof.
  intros req e.
  apply (verified_token_without_name_or_email req e (sample_world 0 []) "anon" anonymous);
    reflexivity.
Defined.

(** X4. For an accepted token without a name whose e-mail is a string, the
    display name of [req.user] is the e-mail up to its first [@]; the e-mail
    and the uid are the token's. *)
Theorem display_name_defaults_to_local_part
    (req : request) (e : env) (w : world) (s local rest : string) (d : decoded_token)
    (next : Firebase.user -> M response) :
  bearer_token (authorization req) = Ok (VStr s) ->
  falsy (VStr s) = false ->
  verifyIdToken e s = Ok d ->
  truthy (token_name d) = false ->
  token_email d = VStr (local +:+ String "@" rest) ->
  lacks "@" local = true ->
  Firebase.authenticateToken req next e w
  = next {| Firebase.user_email := token_email d;
            Firebase.user_displayName := VStr local;
            Firebase.user_uid := token_uid d |} e w.
Proof.
  intros Hb Hf Hv Hn He Hl.
  unfold Firebase.authenticateToken, verify_id_token. run_handler.
  rewrite Hb. simpl. rewrite Hf. simpl. rewrite Hv. simpl. rewrite Hn. simpl.
  rewrite He. simpl. by rewrite split_string_first.
Qed.

Lemma display_name_defaults_to_local_part_witness :
  let req := with_authorization "Bearer bob" bare_request in
  let e := wide_env Healthy "production" in
  Firebase.authenticateToken req (Firebase.verify_token req) e (sample_world 0 [])
  = Firebase.verify_token req
      {| Firebase.user_email := token_email nameless;
         Firebase.user_displayName := VStr "bob.k";
         Firebase.user_uid := token_uid nameless |} e (sample_world 0 []).
Proof.
  intros req e.
  apply (display_name_defaults_to_local_part req e (sample_world 0 []) "bob" "bob.k"
           "example.com" nameless); reflexivity.
Defined.

(** ** The upsert routes *)

Lemma updateUserBalanceSheet_rejected (u : Firebase.userData) (e : env) (w : world) (err : error) :
  reads e = Rejects err ->
  Firebase.updateUserBalanceSheet u e w
  = (Throw (new_Error ("Failed to update sheet: " +:+ message err)),
     log_call (Get Firebase.balance_range) (set_now (now w + latency e) w)).
Proof.
  intros Hr. unfold Firebase.updateUserBalanceSheet, values_get. run_handler.
  by rewrite Hr.
Qed.

Lemma existsb_snoc {A} (p : A -> bool) (l : list A) (x : A) :
  p x = true -> existsb p (l ++ [x]) = true.
Proof. intros H. rewrite existsb_app. simpl. rewrite H. apply orb_true_r. Qed.

(** An upsert that returns leaves a row with the e-mail. *)
Lemma updateUserBalanceSheet_ok_row (u : Firebase.userData) (e : env) (w w' : world) :
  Firebase.updateUserBalanceSheet u e w = (Ok tt, w') ->
  strict_eq (Firebase.email u) (Firebase.email u) = true ->
  existsb (Firebase.has_email (Firebase.email u)) (balance w') = true.
Proof.
  unfold Firebase.updateUserBalanceSheet, values_get, values_append, balance.
  run_handler. intros Hrun Hrefl.
  destruct (reads e); simpl in *; try discriminate.
  destruct (findIndex _ _) eqn:Hf; simpl in *.
  - injection Hrun as <-. simpl.
    destruct (existsb _ _) eqn:Hex; [done|].
    apply findIndex_None in Hex. congruence.
  - destruct (appends e); simpl in *; [discriminate|].
    injection Hrun as <-. simpl. rewrite lookup_insert_eq. simpl.
    by apply existsb_snoc.
Qed.

(** X5. While the spreadsheet rejects reads, a Google login fails with the
    status 500 although the ID token is accepted, and a signup fails with the
    status 500 and the downstream error's message in [details]; neither
    appends a row. *)
Theorem sheet_outage_fails_login_and_signup
    (req : request) (u : Firebase.user) (e : env) (w : world) (err : error)
    (s : string) (d : decoded_token) :
  reads e = Rejects err ->
  body_idToken req = VStr s ->
  s <> EmptyString ->
  verifyIdToken e s = Ok d ->
  strict_eq (Firebase.user_email u) (body_email req) = true ->
  Firebase.login_google req e w
  = (Ok (status_json 500 (Firebase.error_json "Failed to authenticate with Google")),
     log_call (Get Firebase.balance_range) (set_now (now w + latency e) w))
  /\ Firebase.signup req u e w
     = (Ok (status_json 500
              (Obj [("success", Bool false); ("message", Str "Internal server error");
                    ("details", Str ("Failed to update sheet: " +:+ message err))])),
        log_call (Get Firebase.balance_range) (set_now (now w + latency e) w)).
Proof.
  intros Hr Hid Hne Hv Heq. split.
  - unfold Firebase.login_google, verify_id_token. run_handler.
    rewrite Hid. assert (falsy (VStr s) = false) as -> by by destruct s.
    simpl. rewrite Hv. simpl.
    by rewrite (updateUserBalanceSheet_rejected _ e w err Hr).
  - unfold Firebase.signup. run_handler. rewrite Heq. simpl.
    by rewrite (updateUserBalanceSheet_rejected _ e w err Hr).
Qed.

Lemma sheet_outage_fails_login_and_signup_witness :
  let req := with_email "ann@example.com" (with_idToken "good" bare_request) in
  let e := wide_env (Rejects outage) "production" in
  let w := sample_world 0 [(Firebase.balance_range, [ann_row])] in
  Firebase.login_google req e w
  = (Ok (status_json 500 (Firebase.error_json "Failed to authenticate with Google")),
     log_call (Get Firebase.balance_range) (set_now (now w + latency e) w))
  /\ Firebase.signup req ann_user e w
     = (Ok (status_json 500
              (Obj [("success", Bool false); ("message", Str "Internal server error");
                    ("details", Str ("Failed to update sheet: " +:+ message outage))])),
        log_call (Get Firebase.balance_range) (set_now (now w + latency e) w)).
Proof.
  intros req e w.
  apply (sheet_outage_fails_login_and_signup req ann_user e w outage "good" ann);
    try reflexivity.
  discriminate.
Defined.

(** X6. A Google login or a signup that is answered 200 has left a balance
    row with the submitted e-mail (a string) in the sheet. *)
Theorem success_leaves_a_row (c : upsert_call) (e : env) (w : world) (r : response)
    (s : string) :
  (serve (perform c) e w).1 = Some r ->
  status r = 200 ->
  submitted_email c e = Some (VStr s) ->
  existsb (Firebase.has_email (VStr s)) (balance (serve (perform c) e w).2) = true.
Proof.
  intros Hrun Hst Hsub.
  destruct c as [req|req]; unfold perform, serve, submitted_email in *; simpl in *.
  - unfold Firebase.login_google, verify_id_token, Firebase.create_custom_token in *.
    run_handler.
    destruct (falsy (body_idToken req)); simpl in *;
      [injection Hrun as <-; discriminate|].
    destruct (body_idToken req) as [| |b|x|t]; simpl in *; try discriminate.
    destruct (verifyIdToken e t) as [d|err] eqn:Hv; simpl in *; try discriminate.
    injection Hsub as Hem.
    match goal with H : context [Firebase.updateUserBalanceSheet ?u e w] |- _ =>
      pose proof (updateUserBalanceSheet_ok_row u e) as Hrow;
      destruct (Firebase.updateUserBalanceSheet u e w) as [[[]|err] w1] eqn:Hup
    end; simpl in *; [|injection Hrun as <-; discriminate].
    specialize (Hrow w w1 Hup). simpl in Hrow. rewrite Hem in Hrow.
    destruct (createCustomToken e _); simpl in *;
      [|injection Hrun as <-; discriminate].
    apply Hrow. simpl. apply String.eqb_refl.
  - injection Hsub as Hem.
    destruct (authenticateToken_cases req (Firebase.signup req) e w)
      as [(r' & Ha & Hs)|[u Hu]].
    + rewrite Ha in Hrun. simpl in Hrun. injection Hrun as <-. lia.
    + rewrite Hu in *. unfold Firebase.signup in *. run_handler.
      destruct (strict_eq _ _); simpl in *; [|injection Hrun as <-; discriminate].
      match goal with H : context [Firebase.updateUserBalanceSheet ?u e w] |- _ =>
        pose proof (updateUserBalanceSheet_ok_row u e) as Hrow;
        destruct (Firebase.updateUserBalanceSheet u e w) as [[[]|err] w1] eqn:Hup
      end; simpl in *; [|injection Hrun as <-; discriminate].
      specialize (Hrow w w1 Hup). simpl in Hrow. rewrite Hem in Hrow.
      apply Hrow. simpl. apply String.eqb_refl.
Qed.

Lemma success_leaves_a_row_witness :
  existsb (Firebase.has_email (VStr "ann@example.com"))
    (balance (serve (perform ann_signup) (sample_env Healthy) (sample_world 0 [])).2) = true.
Proof.
  apply (success_leaves_a_row ann_signup (sample_env Healthy) (sample_world 0 [])
           (status_json 200 (Obj [("success", Bool true);
                                  ("message", Str "User created successfully")])));
    reflexivity.
Defined.

(** X7. A signup whose body names another e-mail than the token's is
    answered 403, and nothing is read or written downstream. *)
Theorem signup_for_another_email_is_403
    (req : request) (e : env) (w : world) (s : string) (d : decoded_token) :
  bearer_token (authorization req) = Ok (VStr s) ->
  falsy (VStr s) = false ->
  verifyIdToken e s = Ok d ->
  truthy (token_name d) = true \/ is_string (token_email d) = true ->
  strict_eq (token_email d) (body_email req) = false ->
  serve (Firebase.route Firebase.Signup req) e w
  = (Some (status_json 403
             (Obj [("success", Bool false);
                   ("message", Str "Token email does not match provided email")])), w).
Proof.
  intros Hb Hf Hv Hd Hne. unfold serve. simpl.
  destruct (authenticateToken_passes req (Firebase.signup req) e w s d Hb Hf Hv Hd)
    as [dn ->].
  unfold Firebase.signup. run_handler. by rewrite Hne.
Qed.

Lemma signup_for_another_email_is_403_witness :
  let req := with_email "bob.k@example.com" (with_authorization "Bearer good" bare_request) in
  serve (Firebase.route Firebase.Signup req) (sample_env Healthy) (sample_world 0 [])
  = (Some (status_json 403
             (Obj [("success", Bool false);
                   ("message", Str "Token email does not match provided email")])),
     sample_world 0 []).
Proof.
  intros req.
  apply (signup_for_another_email_is_403 req (sample_env Healthy) (sample_world 0 [])
           "good" ann); try reflexivity.
  by left.
Defined.

(** ** What the routes touch *)

Lemma authenticateToken_well_behaved (a b : bool) (req : request)
    (next : Firebase.user -> M response) :
  (forall u, well_behaved a b (next u)) ->
  well_behaved a b (Firebase.authenticateToken req next).
Proof.
  intros Hn e w.
  destruct (authenticateToken_cases req next e w) as [(r & -> & Hs)|[u ->]]; [|apply Hn].
  exists r, w. split; [done|]. split; [|by auto].
  unfold known_status. destruct Hs as [-> | ->]; reflexivity.
Qed.

Ltac behaved := do 2 eexists; (split; [reflexivity|]); (split; [reflexivity|]);
  simpl; split; intros; try discriminate; eauto.

Lemma trade_history_well_behaved (req : request) :
  well_behaved false false (Firebase.trade_history req).
Proof.
  intros e w. unfold Firebase.trade_history, values_get. run_handler.
  destruct (reads e); simpl; try behaved.
  destruct (grid w !! _); simpl; [|behaved].
  rewrite process_trades_spec. simpl. behaved.
Qed.

Lemma pnl_data_well_behaved (req : request) :
  well_behaved false false (Firebase.pnl_data req).
Proof.
  intros e w. unfold Firebase.pnl_data, values_get. run_handler.
  destruct (reads e) as [|err|]; simpl; try behaved.
  - destruct (grid w !! _); simpl; behaved.
  - destruct (Firebase.is_rate_limit err); behaved.
Qed.

Lemma wallet_data_well_behaved (req : request) (u : Firebase.user) :
  well_behaved false false (Firebase.wallet_data req u).
Proof.
  intros e w. unfold Firebase.wallet_data, values_get. run_handler.
  destruct (reads e); simpl; try behaved.
  destruct (grid w !! _); simpl; behaved.
Qed.

Lemma performance_data_well_behaved (req : request) :
  well_behaved false true (Firebase.performance_data req).
Proof.
  intros e w. unfold Firebase.performance_data, cache_get, cache_set, values_get.
  run_handler.
  destruct (NodeCache.get (now w) _ (cache w)) as [[p|] c']; simpl; [behaved|].
  destruct (reads e); simpl.
  - destruct (grid w !! _) as [[|values vs]|]; simpl; try behaved;
      destruct (NodeCache.get _ _ c') as [[p|] c'']; simpl; behaved.
  - destruct (NodeCache.get _ _ c') as [[p|] c'']; simpl; behaved.
  - destruct (NodeCache.get _ _ c') as [[p|] c'']; simpl; behaved.
Qed.

Lemma updateUserBalanceSheet_cache (u : Firebase.userData) (e : env) (w : world) :
  cache (Firebase.updateUserBalanceSheet u e w).2 = cache w.
Proof.
  unfold Firebase.updateUserBalanceSheet, values_get, values_append. run_handler.
  destruct (reads e); simpl; try done.
  destruct (findIndex _ _); simpl; [done|]. by destruct (appends e).
Qed.

Lemma login_google_well_behaved (req : request) :
  well_behaved true false (Firebase.login_google req).
Proof.
  intros e w. unfold Firebase.login_google, verify_id_token, Firebase.create_custom_token.
  run_handler.
  destruct (falsy (body_idToken req)); simpl; [behaved|].
  destruct (body_idToken req) as [| |b|x|s]; simpl; try behaved.
  destruct (verifyIdToken e s) as [d|err]; simpl; [|behaved].
  match goal with |- context [Firebase.updateUserBalanceSheet ?u e w] =>
    pose proof (updateUserBalanceSheet_cache u e w) as Hc;
    destruct (Firebase.updateUserBalanceSheet u e w) as [[[]|err] w1]
  end; simpl in *; [destruct (createCustomToken e _); simpl|]; behaved.
Qed.

Lemma signup_well_behaved (req : request) (u : Firebase.user) :
  well_behaved true false (Firebase.signup req u).
Proof.
  intros e w. unfold Firebase.signup. run_handler.
  destruct (strict_eq _ _); simpl; [|behaved].
  match goal with |- context [Firebase.updateUserBalanceSheet ?u e w] =>
    pose proof (updateUserBalanceSheet_cache u e w) as Hc;
    destruct (Firebase.updateUserBalanceSheet u e w) as [[[]|err] w1]
  end; simpl in *; behaved.
Qed.

Lemma well_behaved_weaken (a b : bool) (h : M response) :
  well_behaved false false h -> well_behaved a b h.
Proof.
  intros H e w. destruct (H e w) as (r & w' & Hrun & Hs & Hc & Hg).
  exists r, w'. repeat split; auto; by apply Hg.
Qed.

Lemma route_well_behaved (ep : Firebase.endpoint) (req : request) :
  well_behaved
    (match ep with Firebase.LoginGoogle | Firebase.Signup => true | _ => false end)
    (match ep with Firebase.PerformanceData => true | _ => false end)
    (Firebase.route ep req).
Proof.
  destruct ep; simpl.
  - intros e w. unfold Firebase.root. run_handler. behaved.
  - apply authenticateToken_well_behaved. intros u e w.
    unfold Firebase.verify_token. run_handler. behaved.
  - apply authenticateToken_well_behaved. intros _. apply performance_data_well_behaved.
  - apply authenticateToken_well_behaved. intros _. apply trade_history_well_behaved.
  - apply authenticateToken_well_behaved. intros _. apply pnl_data_well_behaved.
  - apply login_google_well_behaved.
  - apply authenticateToken_well_behaved. intros u. apply wallet_data_well_behaved.
  - apply authenticateToken_well_behaved. intros u. apply signup_well_behaved.
Qed.


(** X9. The routes other than the Google login and the signup never write:
    they leave every range of the spreadsheet as it is and issue at most one
    downstream call, a read. *)
Theorem read_routes_never_write (ep : Firebase.endpoint) (req : request)
    (e : env) (w : world) :
  ep ∈ read_routes ->
  grid (serve (Firebase.route ep req) e w).2 = grid w
  /\ (calls (serve (Firebase.route ep req) e w).2 = calls w
      \/ exists range, calls (serve (Firebase.route ep req) e w).2 = calls w ++ [Get range]).
Proof.
  intros Hep.
  destruct (route_well_behaved ep req e w) as (r & w' & Hrun & _ & _ & Hg).
  unfold serve. rewrite Hrun. simpl. apply Hg.
  unfold read_routes in Hep.
  repeat (apply elem_of_cons in Hep as [->|Hep]; [done|]). by apply elem_of_nil in Hep.
Qed.

Lemma read_routes_never_write_witness :
  let req := with_authorization "Bearer good" bare_request in
  let w := sample_world 0 [(Firebase.balance_range, [ann_row])] in
  grid (serve (Firebase.route Firebase.WalletData req) (sample_env Healthy) w).2 = grid w
  /\ (calls (serve (Firebase.route Firebase.WalletData req) (sample_env Healthy) w).2 = calls w
      \/ exists range,
           calls (serve (Firebase.route Firebase.WalletData req) (sample_env Healthy) w).2
           = calls w ++ [Get range]).
Proof.
  intros req w. apply (read_routes_never_write Firebase.WalletData req (sample_env Healthy) w).
  unfold read_routes. repeat constructor.
Defined.

(** X10. Only the performance-data route touches the cache: every other
    route leaves it as it found it. *)
Theorem only_performance_data_caches (ep : Firebase.endpoint) (req : request)
    (e : env) (w : world) :
  ep <> Firebase.PerformanceData ->
  cache (serve (Firebase.route ep req) e w).2 = cache w.
Proof.
  intros Hep.
  destruct (route_well_behaved ep req e w) as (r & w' & Hrun & _ & Hc & _).
  unfold serve. rewrite Hrun. simpl. apply Hc. by destruct ep.
Qed.

Lemma only_performance_data_caches_witness :
  cache (serve (Firebase.route Firebase.TradeHistory
                  (with_authorization "Bearer good" bare_request))
           (sample_env Healthy) (sample_world 0 [])).2
  = cache (sample_world 0 []).
Proof.
  apply (only_performance_data_caches Firebase.TradeHistory). discriminate.
Defined.

(** ** Failures *)

(** X11. Outside development mode the body of a trade-history error never
    carries the downstream error's message: whatever makes the read fail,
    the answer is 500 with the fixed text and [details] undefined; in
    development mode [details] is the message of a rejected read. *)
Theorem trade_history_error_details (req : request) (e : env) (w : world) (err : error) :
  reads e <> Healthy ->
  (strict_eq (NODE_ENV e) (VStr "development") = false ->
   (serve (Firebase.trade_history req) e w).1
   = Some (status_json 500 (Obj [("error", Str "Failed to fetch trade history");
                                 ("details", Prim VUndef)])))
  /\ (strict_eq (NODE_ENV e) (VStr "development") = true ->
      reads e = Rejects err ->
      (serve (Firebase.trade_history req) e w).1
      = Some (status_json 500 (Obj [("error", Str "Failed to fetch trade history");
                                    ("details", Str (message err))]))).
Proof.
  intros Hr. unfold serve, Firebase.trade_history, values_get. run_handler.
  split.
  - intros Hm. destruct (reads e); simpl; [done| |]; by rewrite Hm.
  - intros Hm ->. simpl. by rewrite Hm.
Qed.

Lemma trade_history_error_details_witness :
  (serve (Firebase.trade_history bare_request) (wide_env (Rejects outage) "production")
     (sample_world 0 [])).1
  = Some (status_json 500 (Obj [("error", Str "Failed to fetch trade history");
                                ("details", Prim VUndef)])).
Proof.
  apply (trade_history_error_details bare_request (wide_env (Rejects outage) "production")
           (sample_world 0 []) outage).
  - discriminate.
  - reflexivity.
Defined.

(** X12. A pnl-data request whose read is rejected is answered 429 "Rate
    limit exceeded" when the error's code is 429 and 500 "Internal server
    error" otherwise; the error's own message is not sent. The request has
    then taken the second the handler waits plus the time of the read. *)
Theorem pnl_data_failure_status (req : request) (e : env) (w : world) (err : error) :
  reads e = Rejects err ->
  (serve (Firebase.pnl_data req) e w).1
  = Some (if Firebase.is_rate_limit err
          then status_json 429 (Firebase.error_json "Rate limit exceeded")
          else status_json 500 (Firebase.error_json "Internal server error"))
  /\ now (serve (Firebase.pnl_data req) e w).2 = now w + 1000 + latency e.
Proof.
  intros Hr. unfold serve, Firebase.pnl_data, values_get. run_handler.
  rewrite Hr. simpl. by destruct (Firebase.is_rate_limit err).
Qed.

Lemma pnl_data_failure_status_witness :
  (serve (Firebase.pnl_data bare_request) (wide_env (Rejects rate_limited) "production")
     (sample_world 0 [])).1
  = Some (status_json 429 (Firebase.error_json "Rate limit exceeded"))
  /\ now (serve (Firebase.pnl_data bare_request) (wide_env (Rejects rate_limited) "production")
            (sample_world 0 [])).2 = 1050.
Proof.
  apply (pnl_data_failure_status bare_request (wide_env (Rejects rate_limited) "production")
           (sample_world 0 []) rate_limited).
  reflexivity.
Defined.

(** X13. A performance-data request answered 500 leaves no cache entry: a
    request that arrives next, before the read of any other waiting request
    settles, reads the spreadsheet again. *)
Theorem performance_failure_is_not_cached
    (s s' : Overlap.state) (i : nat) (e : env) (t : Z) (r : response)
    (t' : Z) (e' : env) (req' : request) :
  Overlap.in_flight s !! i = Some (e, Overlap.performance_data_waiting) ->
  Overlap.step Overlap.performance_data (Overlap.Settles t i) s = (Some r, s') ->
  status r = 500 ->
  cache (Overlap.shared s') !! "performance-data" = None
  /\ calls (Overlap.shared
              (Overlap.step Overlap.performance_data (Overlap.Arrives t' e' req') s').2)
     = calls (Overlap.shared s') ++ [Get "Trade-History!H1:N1"].
Proof.
  intros Hi Hstep Hst.
  assert (cache (Overlap.shared s') !! "performance-data" = None) as Hnone.
  { revert Hstep. cbn [Overlap.step]. rewrite Hi.
    unfold Overlap.settle, Overlap.performance_data_waiting,
      Overlap.performance_data_settled, Overlap.performance_data_catch,
      Overlap.got, cache_get, cache_set.
    run_handler.
    destruct (reads e); simpl.
    - destruct (grid (Overlap.shared s) !! _) as [[|values vs]|]; simpl.
      + destruct (NodeCache.get t _ _) as [[p|] c'] eqn:Hget; simpl;
          intros [= <- <-]; [done|]. simpl. by apply get_miss in Hget.
      + intros [= <- <-]. done.
      + destruct (NodeCache.get t _ _) as [[p|] c'] eqn:Hget; simpl;
          intros [= <- <-]; [done|]. simpl. by apply get_miss in Hget.
    - destruct (NodeCache.get t _ _) as [[p|] c'] eqn:Hget; simpl;
        intros [= <- <-]; [done|]. simpl. by apply get_miss in Hget.
    - destruct (NodeCache.get t _ _) as [[p|] c'] eqn:Hget; simpl;
        intros [= <- <-]; [done|]. simpl. by apply get_miss in Hget. }
  split; [done|]. cbn [Overlap.step].
  by rewrite (cut_performance_data_miss req' e' (set_now t' (Overlap.shared s'))
                (cache (Overlap.shared s')) (get_absent _ _ _ Hnone)).
Qed.

(** A request misses at 1000 ms and its read is rejected at 1050 ms. *)
Lemma performance_failure_is_not_cached_witness :
  let outage :=
    sample_env (Rejects {| name := "Error"; message := "socket hang up"; code := None |}) in
  let w0 := sample_world 0 [("Trade-History!H1:N1", [perf_row])] in
  let s := (Overlap.step Overlap.performance_data
              (Overlap.Arrives 1000 outage bare_request) (Overlap.idle w0)).2 in
  let s' := (Overlap.step Overlap.performance_data (Overlap.Settles 1050 0) s).2 in
  cache (Overlap.shared s') !! "performance-data" = None
  /\ calls (Overlap.shared
              (Overlap.step Overlap.performance_data
                 (Overlap.Arrives 1060 (sample_env Healthy) bare_request) s').2)
     = calls (Overlap.shared s') ++ [Get "Trade-History!H1:N1"].
Proof.
  intros outage w0 s s'.
  apply (performance_failure_is_not_cached s s' 0 outage 1050
           (status_json 500 (Obj [("error", Str "socket hang up")]))
           1060 (sample_env Healthy) bare_request).
  - reflexivity.
  - reflexivity.
  - reflexivity.
Defined.



(** ** The servers that only read *)

Lemma writes_same_or_get (l l' : list call) :
  l' = l \/ (exists range, l' = l ++ [Get range]) -> writes l' = writes l.
Proof. intros [->|[range ->]]; [done|apply writes_snoc_get]. Qed.

(** X15. The server with split credential fields and the first server never
    write to the spreadsheet, on any route: in particular a Google login on
    the former verifies the token and creates no balance row. *)
Theorem read_only_servers_never_write (req : request) (e : env) (w : world) :
  (forall ep, grid (serve (FirebaseFields.route ep req) e w).2 = grid w
              /\ writes (calls (serve (FirebaseFields.route ep req) e w).2) = writes (calls w))
  /\ (forall ep, grid (serve (Legacy.route ep req) e w).2 = grid w
                 /\ writes (calls (serve (Legacy.route ep req) e w).2) = writes (calls w))
  /\ (serve (FirebaseFields.route FirebaseFields.LoginGoogle req) e w).2 = w.
Proof.
  assert (forall h : M response, well_behaved false true h ->
            grid (serve h e w).2 = grid w /\ writes (calls (serve h e w).2) = writes (calls w))
    as Hwb.
  { intros h Hh. destruct (Hh e w) as (r & w' & Hrun & _ & _ & Hg).
    unfold serve. rewrite Hrun. simpl. destruct (Hg eq_refl) as [Hgrid Hcalls].
    split; [done|]. by apply writes_same_or_get. }
  assert (forall next : decoded_token -> M response,
            (forall u, well_behaved false true (next u)) ->
            well_behaved false true (FirebaseFields.authenticateToken req next)) as Hauth.
  { intros next Hn e0 w0.
    destruct (authenticateToken_fields_cases req next e0 w0) as [(r & -> & Hs)|[u ->]];
      [|apply Hn].
    exists r, w0. split; [done|]. split; [|by auto].
    unfold known_status. destruct Hs as [-> | ->]; reflexivity. }
  split; [|split].
  - intros ep. apply Hwb. destruct ep; simpl.
    + intros e0 w0. unfold Firebase.root. run_handler. behaved.
    + apply Hauth. intros u e0 w0. unfold FirebaseFields.verify_token. run_handler. behaved.
    + apply Hauth. intros _. apply performance_data_well_behaved.
    + apply Hauth. intros _. apply well_behaved_weaken, trade_history_well_behaved.
    + apply Hauth. intros _. apply well_behaved_weaken, pnl_data_well_behaved.
    + intros e0 w0.
      unfold FirebaseFields.login_google, verify_id_token, Firebase.create_custom_token.
      run_handler.
      destruct (falsy (body_idToken req)); simpl; [behaved|].
      destruct (body_idToken req) as [| |b|x|s]; simpl; try behaved.
      destruct (verifyIdToken e0 s) as [d|err]; simpl; [|behaved].
      destruct (createCustomToken e0 _); simpl; behaved.
  - intros ep. unfold serve. destruct ep.
    + done.
    + simpl. unfold Legacy.performance_data, values_get. run_handler.
      destruct (reads e); simpl; rewrite ?writes_snoc_get; try done.
      destruct (grid w !! _) as [rs|]; simpl; rewrite ?writes_snoc_get; [|done].
      destruct (length rs <? 2)%nat; simpl; by rewrite writes_snoc_get.
    + simpl. unfold Legacy.trade_history, values_get. run_handler.
      destruct (reads e); simpl; rewrite ?writes_snoc_get; try done.
      destruct (grid w !! _) as [[|r rs]|]; simpl; by rewrite writes_snoc_get.
    + unfold Legacy.route, Legacy.login, find, Legacy.users, try_catch, bind, ret, ask.
      cbn [List.find]. by destruct (_ && _).
    + simpl. unfold Legacy.pnl_data, values_get. run_handler.
      destruct (reads e); simpl; rewrite ?writes_snoc_get; try done.
      destruct (grid w !! _) as [rs|]; simpl; by rewrite writes_snoc_get.
  - unfold serve. simpl.
    unfold FirebaseFields.login_google, verify_id_token, Firebase.create_custom_token.
    run_handler.
    destruct (falsy (body_idToken req)); simpl; [done|].
    destruct (body_idToken req) as [| |b|x|s]; simpl; try done.
    destruct (verifyIdToken e s) as [d|err]; simpl; [|done].
    by destruct (createCustomToken e _).
Qed.

(** ** The first server *)

Lemma strict_eq_string (a : string) (v : value) :
  strict_eq (VStr a) v = true <-> v = VStr a.
Proof.
  destruct v as [| |b|x|s]; simpl; try (split; [discriminate|by inversion 1]).
  rewrite String.eqb_eq. split; [by intros ->|by inversion 1].
Qed.

(** X16. The login of the first server issues a token only for the one
    test user with its password, both given as strings; every other body is
    answered 401. It never reads the spreadsheet. *)
Theorem legacy_login_only_test_user (req : request) (e : env) (w : world) :
  (body_email req = VStr "asb@gmail.com" /\ body_password req = VStr "123" ->
   serve (Legacy.login req) e w
   = (Some (json (Obj [("success", Bool true);
                       ("token", Str (jwt_sign e (VStr "asb@gmail.com")));
                       ("message", Str "Login successful")])), w))
  /\ (~ (body_email req = VStr "asb@gmail.com" /\ body_password req = VStr "123") ->
      serve (Legacy.login req) e w
      = (Some (status_json 401 (Obj [("success", Bool false);
                                     ("error", Str "Invalid credentials")])), w)).
Proof.
  unfold serve, Legacy.login, find, Legacy.users, try_catch, bind, ret, ask.
  cbn [List.find fst snd].
  destruct (strict_eq (VStr "asb@gmail.com") (body_email req)
            && strict_eq (VStr "123") (body_password req)) eqn:Hc.
  - split; [done|]. intros Hn. exfalso. apply Hn.
    apply andb_prop in Hc as [H1 H2]. by rewrite strict_eq_string in H1, H2.
  - split; [|done]. intros [H1 H2]. apply strict_eq_string in H1, H2.
    rewrite H1, H2 in Hc. discriminate.
Qed.

Lemma legacy_login_only_test_user_witness :
  serve (Legacy.login (with_password "123" (with_email "asb@gmail.com" bare_request)))
    (wide_env Healthy "production") (sample_world 1000 [])
  = (Some (json (Obj [("success", Bool true);
                      ("token", Str (jwt_sign (wide_env Healthy "production")
                                       (VStr "asb@gmail.com")));
                      ("message", Str "Login successful")])), sample_world 1000 []).
Proof.
  apply (proj1 (legacy_login_only_test_user
                  (with_password "123" (with_email "asb@gmail.com" bare_request))
                  (wide_env Healthy "production") (sample_world 1000 []))).
  split; reflexivity.
Defined.

(** X17. The trade-history of the first server drops nothing: with the read
    answering, it returns one entry per row, the last row first, a short row
    giving undefined fields. *)
Theorem legacy_trade_history_keeps_every_row (req : request) (e : env) (w : world) :
  reads e = Healthy ->
  let rows := default [] (grid w !! "Trade-History!A2:F") in
  exists items,
    (serve (Legacy.trade_history req) e w).1 = Some (json (Arr items))
    /\ length items = length rows
    /\ forall i r, rows !! i = Some r ->
         items !! (length rows - S i)%nat = Some (Legacy.trade_json r).
Proof.
  intros Hr rows. exists (rev (Legacy.trade_json <$> rows)). split; [|split].
  - unfold serve, Legacy.trade_history, values_get, rows. run_handler.
    rewrite Hr. simpl. by destruct (grid w !! _) as [[|r rs]|].
  - by rewrite length_rev, length_fmap.
  - intros i r Hi. rewrite rev_alt. change (rev_append ?l []) with (reverse l).
    assert (i < length rows)%nat as Hlt by (by eapply lookup_lt_Some).
    rewrite reverse_lookup by (rewrite length_fmap; lia).
    rewrite length_fmap.
    replace (length rows - S (length rows - S i))%nat with i by lia.
    by rewrite list_lookup_fmap, Hi.
Qed.

Lemma legacy_trade_history_keeps_every_row_witness :
  exists items,
    (serve (Legacy.trade_history bare_request) (sample_env Healthy)
       (sample_world 0 [("Trade-History!A2:F",
          [ [VStr "2024-01-04"; VStr "XAU"]; [VStr "2024-01-05"] ])])).1
    = Some (json (Arr items))
    /\ length items = 2%nat.
Proof.
  destruct (legacy_trade_history_keeps_every_row bare_request (sample_env Healthy)
              (sample_world 0 [("Trade-History!A2:F",
                 [ [VStr "2024-01-04"; VStr "XAU"]; [VStr "2024-01-05"] ])]))
    as (items & Hrun & Hlen & _).
  - reflexivity.
  - exists items. split; [exact Hrun|exact Hlen].
Defined.

(** X18. The performance-data of the first server answers 404 exactly when
    the range has fewer than two rows (none at all included); with two or
    more it answers with four metrics, values from the second row and changes
    from the first. *)
Theorem legacy_performance_needs_two_rows (req : request) (e : env) (w : world) :
  reads e = Healthy ->
  let rows := default [] (grid w !! "Performance-Overview!B2:E3") in
  (serve (Legacy.performance_data req) e w).1
  = Some (if (length rows <? 2)%nat
          then status_json 404 (Firebase.error_json "No data found in spreadsheet")
          else json (Arr [ Legacy.metric "This Week PNL" rows 0;
                           Legacy.metric "Last Week PNL" rows 1;
                           Legacy.metric "Monthly PNL" rows 2;
                           Legacy.metric "Yearly PNL" rows 3 ])).
Proof.
  intros Hr rows. unfold serve, Legacy.performance_data, values_get, rows. run_handler.
  rewrite Hr. simpl. destruct (grid w !! _) as [rs|]; simpl; [|done].
  by destruct (length rs <? 2)%nat.
Qed.

Lemma legacy_performance_needs_two_rows_witness :
  (serve (Legacy.performance_data bare_request) (sample_env Healthy)
     (sample_world 0 [("Performance-Overview!B2:E3", [[VStr "+2%"]])])).1
  = Some (status_json 404 (Firebase.error_json "No data found in spreadsheet")).
Proof.
  apply (legacy_performance_needs_two_rows bare_request (sample_env Healthy)
           (sample_world 0 [("Performance-Overview!B2:E3", [[VStr "+2%"]])])).
  reflexivity.
Defined.

(** ** The tunnel script *)

Lemma append_cons (a : ascii) (s t : string) : String a s +:+ t = String a (s +:+ t).
Proof. reflexivity. Qed.

Lemma append_empty (t : string) : EmptyString +:+ t = t.
Proof. reflexivity. Qed.

Lemma append_assoc (a b c : string) : (a +:+ b) +:+ c = a +:+ b +:+ c.
Proof. induction a as [|x a IH]; [done|]. by rewrite !append_cons, IH. Qed.

Lemma prefix_split (p s : string) :
  String.prefix p s = true -> s = p +:+ drop_str (String.length p) s.
Proof.
  revert s. induction p as [|a p IH]; intros s.
  - by destruct s.
  - destruct s as [|b s]; [discriminate|]. cbn [String.prefix].
    destruct (ascii_dec a b) as [->|]; [|discriminate].
    intros H. cbn [String.length drop_str]. by rewrite append_cons, <- (IH s H).
Qed.

Lemma prefix_app (p t : string) : String.prefix p (p +:+ t) = true.
Proof.
  induction p as [|a p IH]; [by destruct t|]. rewrite append_cons. cbn [String.prefix].
  by destruct (ascii_dec a a).
Qed.

Lemma drop_str_app (p t : string) : drop_str (String.length p) (p +:+ t) = t.
Proof.
  induction p as [|a p IH]; [by destruct t|].
  by rewrite append_cons.
Qed.

(** Whether [p] is a prefix is decided within the first [length p] code
    units. *)
Lemma prefix_within (p a x y : string) :
  (String.length p <= String.length a)%nat ->
  String.prefix p (a +:+ x) = String.prefix p (a +:+ y).
Proof.
  revert a. induction p as [|c p IH]; intros a Hlen.
  { by destruct (a +:+ x), (a +:+ y). }
  destruct a as [|d a]; cbn [String.length] in Hlen; [lia|].
  rewrite !append_cons. cbn [String.prefix].
  destruct (ascii_dec c d); [|done]. apply IH. lia.
Qed.

Lemma search_split (pat s b t : string) :
  Ngrok.search pat s = Some (b, t) -> s = b +:+ pat +:+ t.
Proof.
  revert b. induction s as [|c s IH]; intros b; cbn [Ngrok.search].
  - destruct (String.prefix pat EmptyString) eqn:Hp; [|discriminate].
    intros [= <- <-]. by apply prefix_split in Hp.
  - destruct (String.prefix pat (String c s)) eqn:Hp.
    + intros [= <- <-]. by apply prefix_split in Hp.
    + destruct (Ngrok.search pat s) as [[b' t']|]; [|discriminate].
      intros [= <- <-]. by rewrite append_cons, <- (IH b' eq_refl).
Qed.

Lemma search_here (pat t : string) :
  Ngrok.search pat (pat +:+ t) = Some (EmptyString, t).
Proof.
  destruct (pat +:+ t) as [|c s] eqn:Hs; cbn [Ngrok.search];
    rewrite <- Hs, prefix_app, drop_str_app; done.
Qed.

(** The leftmost occurrence stays where it is when what follows it
    changes. *)
Lemma search_stable (pat b t t' : string) :
  Ngrok.search pat (b +:+ pat +:+ t) = Some (b, t) ->
  Ngrok.search pat (b +:+ pat +:+ t') = Some (b, t').
Proof.
  induction b as [|c b IH]; intros H.
  - rewrite append_empty. apply search_here.
  - rewrite append_cons in *. cbn [Ngrok.search] in *.
    assert (String.prefix pat (String c (b +:+ pat +:+ t'))
            = String.prefix pat (String c (b +:+ pat +:+ t))) as ->.
    { rewrite <- !append_cons, <- !append_assoc. apply prefix_within.
      rewrite length_append. lia. }
    destruct (String.prefix pat (String c (b +:+ pat +:+ t))); [discriminate|].
    destruct (Ngrok.search pat (b +:+ pat +:+ t)) as [[b' t0]|] eqn:Hs; [|discriminate].
    injection H as -> ->. by rewrite (IH eq_refl).
Qed.

Lemma match_dots_spec (s m r : string) :
  Ngrok.match_dots s = (m, r) ->
  s = m +:+ r /\ lacks_terminators m = true /\ at_line_end r = true.
Proof.
  revert m. induction s as [|c s IH]; intros m; cbn [Ngrok.match_dots].
  - by intros [= <- <-].
  - destruct (Ngrok.is_line_terminator c) eqn:Hc.
    + intros [= <- <-]. by rewrite append_empty.
    + destruct (Ngrok.match_dots s) as [m' r']. intros [= <- <-].
      destruct (IH m' eq_refl) as (-> & Hm & Hr).
      rewrite append_cons. cbn [lacks_terminators]. by rewrite Hc, Hm.
Qed.

Lemma match_dots_app (m r : string) :
  lacks_terminators m = true -> at_line_end r = true ->
  Ngrok.match_dots (m +:+ r) = (m, r).
Proof.
  intros Hm Hr. induction m as [|c m IH].
  - rewrite append_empty. destruct r as [|c r]; [done|].
    cbn [Ngrok.match_dots]. cbn [at_line_end] in Hr. by rewrite Hr.
  - rewrite append_cons. cbn [Ngrok.match_dots lacks_terminators] in *.
    apply andb_prop in Hm as [Hc Hm]. apply negb_true_iff in Hc.
    by rewrite Hc, (IH Hm).
Qed.

Lemma lacks_app (c : ascii) (a b : string) :
  lacks c (a +:+ b) = lacks c a && lacks c b.
Proof.
  induction a as [|x a IH]; [done|].
  rewrite append_cons. cbn [lacks]. by rewrite IH, andb_assoc.
Qed.

(** A template without [$] is taken as it is. *)
Lemma substitution_plain (m b a t : string) :
  lacks "$" t = true -> Ngrok.substitution m b a t = t.
Proof.
  induction t as [|c t IH]; [done|].
  cbn [lacks Ngrok.substitution]. intros H. apply andb_prop in H as [Hc Ht].
  apply negb_true_iff in Hc. by rewrite Hc, (IH Ht).
Qed.

Lemma replace_api_url_shape (url c before tail old after : string) :
  lacks "$" url = true ->
  Ngrok.search Ngrok.key c = Some (before, tail) ->
  Ngrok.match_dots tail = (old, after) ->
  Ngrok.replace_api_url url c = before +:+ Ngrok.key +:+ url +:+ after.
Proof.
  intros Hu Hs Hd. unfold Ngrok.replace_api_url. rewrite Hs, Hd.
  rewrite substitution_plain, append_assoc; [done|].
  rewrite lacks_app, Hu. reflexivity.
Qed.

(** X19. Writing a plain URL (no [$], no line break) and reading the
    variable back gives that URL, whatever the line held before; a file
    without the variable is left as it is, so the URL is not recorded in
    it. *)
Theorem api_url_round_trip (url c : string) :
  plain url = true ->
  (forall old, read_api_url c = Some old ->
     read_api_url (Ngrok.replace_api_url url c) = Some url)
  /\ (read_api_url c = None -> Ngrok.replace_api_url url c = c).
Proof.
  intros Hp. unfold plain in Hp. apply andb_prop in Hp as [Hd Hl].
  unfold read_api_url. split.
  - intros old Hold.
    destruct (Ngrok.search Ngrok.key c) as [[before tail]|] eqn:Hs; [|discriminate].
    destruct (Ngrok.match_dots tail) as [old' after] eqn:Hm.
    rewrite (replace_api_url_shape url c before tail old' after Hd Hs Hm).
    pose proof (search_split _ _ _ _ Hs) as Hc.
    destruct (match_dots_spec _ _ _ Hm) as (_ & _ & Hend).
    rewrite Hc in Hs.
    rewrite (search_stable _ _ _ (url +:+ after) Hs).
    by rewrite (match_dots_app url after Hl Hend).
  - intros Hnone. unfold Ngrok.replace_api_url.
    by destruct (Ngrok.search Ngrok.key c) as [[? ?]|].
Qed.

Lemma api_url_round_trip_witness :
  read_api_url (Ngrok.replace_api_url "https://ab12.ngrok.io" client_env)
  = Some "https://ab12.ngrok.io".
Proof.
  apply (proj1 (api_url_round_trip "https://ab12.ngrok.io" client_env eq_refl)
           "http://localhost:3001").
  reflexivity.
Defined.

(** X20. The last write wins: writing a plain URL over another leaves the
    file as if only the second had been written; in particular writing the
    same URL twice changes nothing the second time. *)
Theorem api_url_last_write_wins (u1 u2 c : string) :
  plain u1 = true ->
  plain u2 = true ->
  Ngrok.replace_api_url u2 (Ngrok.replace_api_url u1 c) = Ngrok.replace_api_url u2 c.
Proof.
  intros H1 H2. unfold plain in *.
  apply andb_prop in H1 as [Hd1 Hl1]. apply andb_prop in H2 as [Hd2 Hl2].
  destruct (Ngrok.search Ngrok.key c) as [[before tail]|] eqn:Hs.
  - destruct (Ngrok.match_dots tail) as [old after] eqn:Hm.
    rewrite (replace_api_url_shape u1 c before tail old after Hd1 Hs Hm).
    rewrite (replace_api_url_shape u2 c before tail old after Hd2 Hs Hm).
    pose proof (search_split _ _ _ _ Hs) as Hc.
    destruct (match_dots_spec _ _ _ Hm) as (_ & _ & Hend).
    rewrite Hc in Hs.
    apply (replace_api_url_shape u2 _ before (u1 +:+ after) u1 after Hd2).
    + apply (search_stable _ _ _ _ Hs).
    + by apply match_dots_app.
  - unfold Ngrok.replace_api_url at 2. rewrite Hs. done.
Qed.

Lemma api_url_last_write_wins_witness :
  Ngrok.replace_api_url "https://cd34.ngrok.io"
    (Ngrok.replace_api_url "https://ab12.ngrok.io" client_env)
  = Ngrok.replace_api_url "https://cd34.ngrok.io" client_env.
Proof.
  apply (api_url_last_write_wins "https://ab12.ngrok.io" "https://cd34.ngrok.io" client_env);
    reflexivity.
Defined.

(** X21. Only the rest of one line changes: with a plain URL, everything
    before the first [REACT_APP_API_URL=] and everything from the end of its
    line on is kept, and only that first occurrence is rewritten. *)
Theorem api_url_rest_of_file_untouched (url c before tail : string) :
  plain url = true ->
  Ngrok.search Ngrok.key c = Some (before, tail) ->
  exists old after,
    c = before +:+ Ngrok.key +:+ old +:+ after
    /\ Ngrok.replace_api_url url c = before +:+ Ngrok.key +:+ url +:+ after
    /\ lacks_terminators old = true
    /\ at_line_end after = true.
Proof.
  intros Hp Hs. unfold plain in Hp. apply andb_prop in Hp as [Hd Hl].
  destruct (Ngrok.match_dots tail) as [old after] eqn:Hm.
  exists old, after.
  destruct (match_dots_spec _ _ _ Hm) as (Ht & Hold & Hend).
  split; [|split; [|done]].
  - rewrite (search_split _ _ _ _ Hs). by rewrite Ht.
  - by apply (replace_api_url_shape url c before tail old after).
Qed.

Lemma api_url_rest_of_file_untouched_witness :
  exists old after,
    client_env = ("PORT=3000" +:+ String "010" EmptyString) +:+ Ngrok.key +:+ old +:+ after
    /\ Ngrok.replace_api_url "https://ab12.ngrok.io" client_env
       = ("PORT=3000" +:+ String "010" EmptyString) +:+ Ngrok.key
         +:+ "https://ab12.ngrok.io" +:+ after
    /\ lacks_terminators old = true
    /\ at_line_end after = true.
Proof.
  apply (api_url_rest_of_file_untouched "https://ab12.ngrok.io" client_env
           ("PORT=3000" +:+ String "010" EmptyString)
           ("http://localhost:3001" +:+ String "010" "REACT_APP_ENV=dev"));
    reflexivity.
Defined.

(** What a request that misses the cache answers when the read gives a
    first row. *)
Lemma performance_data_first_row (req : request) (e : env) (w : world)
    (c' : gmap string (NodeCache.entry performance)) (values : row) (rest : list row) :
  NodeCache.get (now w) "performance-data" (cache w) = (None, c') ->
  reads e = Healthy ->
  grid w !! "Trade-History!H1:N1" = Some (values :: rest) ->
  exists w',
    Firebase.performance_data req e w
    = (Ok (json (Firebase.performance_json (Firebase.formattedResult values))), w').
Proof.
  intros Hget Hr Hg.
  unfold Firebase.performance_data, cache_get, cache_set, values_get.
  run_handler. rewrite Hget. simpl. rewrite Hr. simpl. rewrite Hg. simpl.
  by eexists.
Qed.

(** X22. Cells the first row lacks (or holds empty, or 0) are reported as
    zero: with cells 0, 2, 4 and 6 falsy the answer is thisWeek "0.00",
    lastWeek "0.00", monthly 0 and yearly 0. *)
Theorem performance_missing_cells_are_zero (req : request) (e : env) (w : world)
    (c' : gmap string (NodeCache.entry performance)) (values : row) (rest : list row) :
  NodeCache.get (now w) "performance-data" (cache w) = (None, c') ->
  reads e = Healthy ->
  grid w !! "Trade-History!H1:N1" = Some (values :: rest) ->
  (forall i, In i [0; 2; 4; 6]%nat -> falsy (index values i) = true) ->
  exists w',
    Firebase.performance_data req e w
    = (Ok (json (Obj [("thisWeek", Str "0.00"); ("lastWeek", Str "0.00");
                      ("monthly", Num zero); ("yearly", Num zero)])), w').
Proof.
  intros Hget Hr Hg Hf.
  destruct (performance_data_first_row req e w c' values rest Hget Hr Hg) as [w' ->].
  exists w'. unfold Firebase.formattedResult, Firebase.performance_json.
  rewrite !parseFloat_or_zero. unfold amount. cbn [thisWeek lastWeek monthly yearly].
  rewrite !Hf by (cbn [In]; auto). reflexivity.
Qed.

Lemma performance_missing_cells_are_zero_witness :
  exists w',
    Firebase.performance_data bare_request (wide_env Healthy "production")
      (sample_world 1000 [("Trade-History!H1:N1", [[VStr EmptyString; VStr "n/a"]])])
    = (Ok (json (Obj [("thisWeek", Str "0.00"); ("lastWeek", Str "0.00");
                      ("monthly", Num zero); ("yearly", Num zero)])), w').
Proof.
  apply (performance_missing_cells_are_zero bare_request (wide_env Healthy "production")
           (sample_world 1000 [("Trade-History!H1:N1", [[VStr EmptyString; VStr "n/a"]])])
           ∅ [VStr EmptyString; VStr "n/a"] []).
  - reflexivity.
  - reflexivity.
  - reflexivity.
  - intros i Hi. cbn [In] in Hi.
    destruct Hi as [<-|[<-|[<-|[<-|[]]]]]; reflexivity.
Defined.

(** X23. The two weekly figures are strings with exactly two decimals
    whenever the numbers read from cells 0 and 2 are finite and below 1e21
    in magnitude; the monthly and yearly figures are numbers. *)
Theorem performance_weeks_have_two_decimals (req : request) (e : env) (w : world)
    (c' : gmap string (NodeCache.entry performance)) (values : row) (rest : list row) :
  NodeCache.get (now w) "performance-data" (cache w) = (None, c') ->
  reads e = Healthy ->
  grid w !! "Trade-History!H1:N1" = Some (values :: rest) ->
  below_1e21 (amount (index values 0)) = true ->
  below_1e21 (amount (index values 2)) = true ->
  exists this last month year w',
    Firebase.performance_data req e w
    = (Ok (json (Obj [("thisWeek", Str this); ("lastWeek", Str last);
                      ("monthly", Num month); ("yearly", Num year)])), w')
    /\ two_decimals this = true
    /\ two_decimals last = true.
Proof.
  intros Hget Hr Hg H0 H2.
  destruct (performance_data_first_row req e w c' values rest Hget Hr Hg) as [w' ->].
  unfold Firebase.formattedResult, Firebase.performance_json.
  rewrite !parseFloat_or_zero. cbn [thisWeek lastWeek monthly yearly].
  do 4 eexists. exists w'. split; [reflexivity|].
  split; by apply toFixed2_two_decimals.
Qed.

Lemma performance_weeks_have_two_decimals_witness :
  exists this last month year w',
    Firebase.performance_data bare_request (wide_env Healthy "production")
      (sample_world 1000
         [("Trade-History!H1:N1",
           [[VStr "12.5"; VUndef; VStr "-3.14159"; VUndef; VStr "41.5"]])])
    = (Ok (json (Obj [("thisWeek", Str this); ("lastWeek", Str last);
                      ("monthly", Num month); ("yearly", Num year)])), w')
    /\ two_decimals this = true
    /\ two_decimals last = true.
Proof.
  apply (performance_weeks_have_two_decimals bare_request (wide_env Healthy "production")
           (sample_world 1000
              [("Trade-History!H1:N1",
                [[VStr "12.5"; VUndef; VStr "-3.14159"; VUndef; VStr "41.5"]])])
           ∅
           [VStr "12.5"; VUndef; VStr "-3.14159"; VUndef; VStr "41.5"] []);
    vm_compute; reflexivity.
Defined.
